(** * Order lifecycle and inventory consistency of the e-commerce backend

    A shallow embedding of the order subsystem:
    - [app/domain/orders/value_objects.py]   (module [OrderStatus])
    - [app/domain/orders/entities.py]        (modules [ShippingInfo],
      [PaymentInfo], [OrderItem], [Order])
    - [app/domain/products/entities.py]      (module [Product], the fields the
      order workflow reads)
    - [app/infrastructure/repositories/*.py] (modules [Mongo], [ProductRepo],
      [OrderRepo])
    - [app/services/order_service.py]        (module [OrderService])

    The two MongoDB collections are finite maps from ObjectIds to documents;
    every repository and service coroutine is a state transformer over them
    that returns either a value or the raised exception.  An exception does
    not undo writes that happened before it was raised. *)

From Stdlib Require Import ZArith QArith Ascii String List Lia.
From stdpp Require Import gmap strings list fin_maps pretty.

Close Scope Q_scope.
Open Scope Z_scope.

(** ** Python values shared by all modules *)

(** [datetime] values are instants on a discrete time line. *)
Definition datetime := Z.

(** *** Exceptions *)

(** The application exceptions of [app/core/exceptions.py] that the order
    workflow raises, together with the exceptions of the libraries and
    of the interpreter that can escape from it: pydantic's own
    [ValidationError] (a failed field constraint), the driver's errors for
    a malformed or a duplicate [_id], and the [AttributeError] of an
    attribute access on [None]. *)
Inductive exn : Type :=
| NotFoundError (message : string)
| ValidationError (message : string)
| ForbiddenError (message : string)
| PydanticValidationError
| InvalidId
| DuplicateKeyError
| AttributeError.

Inductive result (A : Type) : Type :=
| Ok (a : A)
| Raise (e : exn).
Arguments Ok {A} a.
Arguments Raise {A} e.

Definition rbind {A B : Type} (r : result A) (k : A -> result B) : result B :=
  match r with
  | Ok a => k a
  | Raise e => Raise e
  end.

Fixpoint rmapM {A B : Type} (f : A -> result B) (l : list A) : result (list B) :=
  match l with
  | [] => Ok []
  | x :: xs =>
      rbind (f x) (fun y => rbind (rmapM f xs) (fun ys => Ok (y :: ys)))
  end.

(** *** Strings *)

(** [str_strip_whitespace=True] in [BaseEntity.model_config]: every [str]
    field is stripped of leading and trailing white space before its
    constraints are checked. *)
Fixpoint lstrip (s : string) : string :=
  match s with
  | EmptyString => EmptyString
  | String c s' => if Ascii.is_space c then lstrip s' else s
  end.

Fixpoint rstrip (s : string) : string :=
  match s with
  | EmptyString => EmptyString
  | String c s' =>
      match rstrip s' with
      | EmptyString => if Ascii.is_space c then EmptyString else String c EmptyString
      | r => String c r
      end
  end.

Definition strip (s : string) : string := rstrip (lstrip s).

(** A [str] field with [min_length=n]. *)
Definition str_field (min_length : nat) (s : string) : result string :=
  let v := strip s in
  if (min_length <=? String.length v)%nat then Ok v else Raise PydanticValidationError.

(** *** ObjectId *)

Definition is_hex (c : ascii) : bool :=
  let n := nat_of_ascii c in
  ((48 <=? n) && (n <=? 57) || (97 <=? n) && (n <=? 102) || (65 <=? n) && (n <=? 70))%nat.

Definition lower (c : ascii) : ascii :=
  let n := nat_of_ascii c in
  if ((65 <=? n) && (n <=? 90))%nat then ascii_of_nat (n + 32) else c.

Fixpoint string_forallb (p : ascii -> bool) (s : string) : bool :=
  match s with
  | EmptyString => true
  | String c s' => p c && string_forallb p s'
  end.

Fixpoint string_map (f : ascii -> ascii) (s : string) : string :=
  match s with
  | EmptyString => EmptyString
  | String c s' => String (f c) (string_map f s')
  end.

(** [ObjectId(s)] for a [str] argument: twenty-four hexadecimal digits, in
    either case; anything else raises inside the constructor, which every
    caller in the repositories turns into an early return.  The identifier
    itself is kept in its canonical text, the lower-case digits that
    [str(ObjectId(s))] prints. *)
Definition ObjectId (s : string) : option string :=
  if (String.length s =? 24)%nat && string_forallb is_hex s
  then Some (string_map lower s)
  else None.

(** *** Decimal *)

(** A finite [decimal.Decimal]: [coeff * 10 ^ (- scale)].  Sums are taken
    inside the context precision, where Python's [+] is exact and keeps the
    larger number of fractional digits. *)
Record Decimal : Type := mkDecimal { coeff : Z; scale : nat }.

Definition dec_of_int (n : Z) : Decimal := mkDecimal n 0.

Definition dec_add (a b : Decimal) : Decimal :=
  let s := Nat.max (scale a) (scale b) in
  mkDecimal (coeff a * 10 ^ Z.of_nat (s - scale a)
             + coeff b * 10 ^ Z.of_nat (s - scale b)) s.

(** The field constraint [ge=0]. *)
Definition dec_ge0 (d : Decimal) : bool := 0 <=? coeff d.

(** Validation of a [Decimal] input for an [int] field: accepted when the
    value has no fractional part. *)
Definition dec_to_int (d : Decimal) : option Z :=
  if coeff d mod 10 ^ Z.of_nat (scale d) =? 0
  then Some (coeff d / 10 ^ Z.of_nat (scale d))
  else None.

(** The rational number a [Decimal] denotes. *)
Definition dec_val (d : Decimal) : Q :=
  Qmake (coeff d) (Z.to_pos (10 ^ Z.of_nat (scale d))).

(** ** [app/domain/orders/value_objects.py] *)

Module OrderStatus.

Inductive t : Type :=
| PROCESSING
| CONFIRMED
| SHIPPED
| OUT_FOR_DELIVERY
| DELIVERED
| CANCELLED
| REFUNDED.

Definition value (s : t) : string :=
  match s with
  | PROCESSING => "Processing"
  | CONFIRMED => "Confirmed"
  | SHIPPED => "Shipped"
  | OUT_FOR_DELIVERY => "Out for Delivery"
  | DELIVERED => "Delivered"
  | CANCELLED => "Cancelled"
  | REFUNDED => "Refunded"
  end.

Definition eqb (a b : t) : bool :=
  match a, b with
  | PROCESSING, PROCESSING | CONFIRMED, CONFIRMED | SHIPPED, SHIPPED
  | OUT_FOR_DELIVERY, OUT_FOR_DELIVERY | DELIVERED, DELIVERED
  | CANCELLED, CANCELLED | REFUNDED, REFUNDED => true
  | _, _ => false
  end.

(** [x in l] on a list of statuses. *)
Definition mem (x : t) (l : list t) : bool := existsb (eqb x) l.

(** The dict literal of [can_transition_to], in source order. *)
Definition valid_transitions : list (t * list t) :=
  [ (PROCESSING, [CONFIRMED; CANCELLED]);
    (CONFIRMED, [SHIPPED; CANCELLED]);
    (SHIPPED, [OUT_FOR_DELIVERY; CANCELLED]);
    (OUT_FOR_DELIVERY, [DELIVERED]);
    (DELIVERED, [REFUNDED]);
    (CANCELLED, []);
    (REFUNDED, []) ].

(** [d.get(key, default)]. *)
Fixpoint dict_get (d : list (t * list t)) (key : t) (default : list t) : list t :=
  match d with
  | [] => default
  | (k, v) :: d' => if eqb k key then v else dict_get d' key default
  end.

Definition can_transition_to (current new : t) : bool :=
  mem new (dict_get valid_transitions current []).

Definition is_final (self : t) : bool :=
  mem self [DELIVERED; CANCELLED; REFUNDED].

Definition is_cancellable (self : t) : bool :=
  mem self [PROCESSING; CONFIRMED; SHIPPED].

End OrderStatus.

Notation "x <- c ;; k" := (rbind c (fun x => k))
  (at level 100, c at next level, right associativity).

(** A constraint of a pydantic field: a failed check raises pydantic's
    [ValidationError]. *)
Definition require (b : bool) : result unit :=
  if b then Ok tt else Raise PydanticValidationError.

(** [sum(...)] over integers: a left fold that starts at [0]. *)
Definition sum_int (l : list Z) : Z := fold_left Z.add l 0.

(** ** [app/domain/orders/entities.py] *)

(** The [id] and [created_at] that the embedded entities inherit from
    [BaseEntity] play no part in the workflow and are left out. *)

Module ShippingInfo.

Record t : Type := mk {
  address : string;
  city : string;
  country : string;
  postal_code : string;
  phone_no : string
}.

(** The constructor call [ShippingInfo(address=..., ...)]; every field
    has [min_length=1]. *)
Definition new (address city country postal_code phone_no : string) : result t :=
  a <- str_field 1 address ;;
  c <- str_field 1 city ;;
  n <- str_field 1 country ;;
  p <- str_field 1 postal_code ;;
  h <- str_field 1 phone_no ;;
  Ok (mk a c n p h).

Definition model_validate (doc : t) : result t :=
  new (address doc) (city doc) (country doc) (postal_code doc) (phone_no doc).

End ShippingInfo.

Module PaymentInfo.

Record t : Type := mk {
  id : string;
  status : string
}.

Definition new (id status : string) : result t :=
  i <- str_field 0 id ;;
  s <- str_field 0 status ;;
  Ok (mk i s).

Definition model_validate (doc : t) : result t :=
  new (id doc) (status doc).

End PaymentInfo.

Module OrderItem.

Record t : Type := mk {
  product : string;
  name : string;
  price : Z;
  quantity : Z;
  image : string
}.

(** [price: int = Field(..., ge=0)] behind the [convert_price] validator:
    the value reaches the field as a [Decimal] and is accepted when it is
    a non-negative whole number. *)
Definition price_field (v : Decimal) : result Z :=
  match dec_to_int v with
  | Some p => _ <- require (0 <=? p) ;; Ok p
  | None => Raise PydanticValidationError
  end.

Definition new (product name : string) (price : Decimal) (quantity : Z)
    (image : string) : result t :=
  pr <- str_field 0 product ;;
  nm <- str_field 0 name ;;
  p <- price_field price ;;
  _ <- require (1 <=? quantity) ;;
  im <- str_field 0 image ;;
  Ok (mk pr nm p quantity im).

(** A stored item holds an [int] price, which [convert_price] turns into
    [Decimal(str(v))] before the field is checked. *)
Definition model_validate (doc : t) : result t :=
  new (product doc) (name doc) (dec_of_int (price doc)) (quantity doc) (image doc).

Definition subtotal (self : t) : Z := price self * quantity self.

End OrderItem.

Module Order.

Record t : Type := mk {
  id : option string;
  created_at : datetime;
  user : string;
  shipping_info : ShippingInfo.t;
  order_items : list OrderItem.t;
  items_price : Decimal;
  tax_price : Decimal;
  shipping_price : Decimal;
  total_price : Decimal;
  payment_info : option PaymentInfo.t;
  paid_at : option datetime;
  delivered_at : option datetime;
  order_status : OrderStatus.t
}.

(** Attribute assignments.  [validate_assignment=True] re-checks the
    constraint of the assigned field. *)
Definition set_items_price (self : t) (v : Decimal) : result t :=
  _ <- require (dec_ge0 v) ;;
  Ok (mk (id self) (created_at self) (user self) (shipping_info self)
         (order_items self) v (tax_price self) (shipping_price self)
         (total_price self) (payment_info self) (paid_at self)
         (delivered_at self) (order_status self)).

Definition set_total_price (self : t) (v : Decimal) : result t :=
  _ <- require (dec_ge0 v) ;;
  Ok (mk (id self) (created_at self) (user self) (shipping_info self)
         (order_items self) (items_price self) (tax_price self)
         (shipping_price self) v (payment_info self) (paid_at self)
         (delivered_at self) (order_status self)).

Definition set_order_status (self : t) (v : OrderStatus.t) : t :=
  mk (id self) (created_at self) (user self) (shipping_info self)
     (order_items self) (items_price self) (tax_price self)
     (shipping_price self) (total_price self) (payment_info self)
     (paid_at self) (delivered_at self) v.

Definition set_delivered_at (self : t) (v : option datetime) : t :=
  mk (id self) (created_at self) (user self) (shipping_info self)
     (order_items self) (items_price self) (tax_price self)
     (shipping_price self) (total_price self) (payment_info self)
     (paid_at self) v (order_status self).

Definition set_id (self : t) (v : option string) : t :=
  mk v (created_at self) (user self) (shipping_info self)
     (order_items self) (items_price self) (tax_price self)
     (shipping_price self) (total_price self) (payment_info self)
     (paid_at self) (delivered_at self) (order_status self).

(** The [model_validator(mode="after")].  The sum of the integer
    subtotals is assigned to the [Decimal] field [items_price] through
    [convert_prices], that is as [Decimal(str(n))]. *)
Definition calculate_totals (self : t) : result t :=
  self1 <- match order_items self with
           | [] => Ok self
           | _ :: _ =>
               set_items_price self
                 (dec_of_int (sum_int (map OrderItem.subtotal (order_items self))))
           end ;;
  set_total_price self1
    (dec_add (dec_add (items_price self1) (tax_price self1)) (shipping_price self1)).

(** Field validation, shared by the constructor and [model_validate]:
    [order_items] has [min_length=1], the four amounts have [ge=0]; then
    the model validator runs. *)
Definition validate (id : option string) (created_at : datetime) (user : string)
    (shipping_info : ShippingInfo.t) (order_items : list OrderItem.t)
    (items_price tax_price shipping_price total_price : Decimal)
    (payment_info : option PaymentInfo.t) (paid_at delivered_at : option datetime)
    (order_status : OrderStatus.t) : result t :=
  i <- match id with
       | None => Ok None
       | Some s => s' <- str_field 0 s ;; Ok (Some s')
       end ;;
  u <- str_field 0 user ;;
  _ <- require (1 <=? length order_items)%nat ;;
  _ <- require (dec_ge0 items_price) ;;
  _ <- require (dec_ge0 tax_price) ;;
  _ <- require (dec_ge0 shipping_price) ;;
  _ <- require (dec_ge0 total_price) ;;
  calculate_totals
    (mk i created_at u shipping_info order_items items_price tax_price
        shipping_price total_price payment_info paid_at delivered_at order_status).

(** The constructor call of [OrderService.create_order]: [id],
    [total_price] and [delivered_at] take their defaults and [created_at]
    is [datetime.utcnow()], here [now]. *)
Definition new (now : datetime) (user : string) (shipping_info : ShippingInfo.t)
    (order_items : list OrderItem.t) (items_price tax_price shipping_price : Decimal)
    (payment_info : option PaymentInfo.t) (paid_at : option datetime)
    (order_status : OrderStatus.t) : result t :=
  validate None now user shipping_info order_items items_price tax_price
    shipping_price (mkDecimal 0 2) payment_info paid_at None order_status.

(** [Order.model_validate(document)]: the embedded documents are
    validated as well. *)
Definition model_validate (doc : t) : result t :=
  s <- ShippingInfo.model_validate (shipping_info doc) ;;
  items <- rmapM OrderItem.model_validate (order_items doc) ;;
  p <- match payment_info doc with
       | None => Ok None
       | Some pi => pi' <- PaymentInfo.model_validate pi ;; Ok (Some pi')
       end ;;
  validate (id doc) (created_at doc) (user doc) s items (items_price doc)
    (tax_price doc) (shipping_price doc) (total_price doc) p (paid_at doc)
    (delivered_at doc) (order_status doc).


Definition is_delivered (self : t) : bool :=
  OrderStatus.eqb (order_status self) OrderStatus.DELIVERED.

Definition can_cancel (self : t) : bool :=
  OrderStatus.is_cancellable (order_status self).

Definition can_transition_to (self : t) (new_status : OrderStatus.t) : bool :=
  OrderStatus.can_transition_to (order_status self) new_status.

End Order.

(** ** [app/domain/products/entities.py] *)

Module Product.

(** The fields of a product that the order workflow reads. *)
Record t : Type := mk {
  name : string;
  stock : Z
}.

(** [name] has [min_length=1, max_length=100] and [stock] has [ge=0]. *)
Definition model_validate (doc : t) : result t :=
  n <- str_field 1 (name doc) ;;
  _ <- require (String.length n <=? 100)%nat ;;
  _ <- require (0 <=? stock doc) ;;
  Ok (mk n (stock doc)).

Definition set_stock (self : t) (v : Z) : t := mk (name self) v.

End Product.

(** ** The database *)

Module Mongo.

(** The [products] and [orders] collections, keyed by [_id]. *)
Record db : Type := mk {
  products : gmap string Product.t;
  orders : gmap string Order.t
}.

Definition set_products (d : db) (p : gmap string Product.t) : db := mk p (orders d).
Definition set_orders (d : db) (o : gmap string Order.t) : db := mk (products d) o.

Record UpdateResult : Type := mkUpdateResult {
  matched_count : Z;
  modified_count : Z
}.

End Mongo.

(** A coroutine of the repositories or of the service: it runs on the
    database and leaves a database behind, whether it returns or raises. *)
Definition M (A : Type) : Type := Mongo.db -> Mongo.db * result A.

Definition ret {A : Type} (a : A) : M A := fun d => (d, Ok a).
Definition raise {A : Type} (e : exn) : M A := fun d => (d, Raise e).
Definition lift {A : Type} (r : result A) : M A := fun d => (d, r).

Definition bind {A B : Type} (m : M A) (k : A -> M B) : M B :=
  fun d =>
    match m d with
    | (d', Ok a) => k a d'
    | (d', Raise e) => (d', Raise e)
    end.

Notation "x <~ c ;; k" := (bind c (fun x => k))
  (at level 100, c at next level, right associativity).

(** [for x in l: body(x)] *)
Fixpoint for_each {A : Type} (body : A -> M unit) (l : list A) : M unit :=
  match l with
  | [] => ret tt
  | x :: xs => _ <~ body x ;; for_each body xs
  end.

Definition opt_datetime_eqb (a b : option datetime) : bool :=
  match a, b with
  | None, None => true
  | Some x, Some y => x =? y
  | _, _ => false
  end.

(** ** [app/infrastructure/repositories/product_repository.py] *)

Module ProductRepo.

Definition find_one (object_id : string) : M (option Product.t) :=
  fun d => (d, Ok (Mongo.products d !! object_id)).

(** [update_one({"_id": object_id, "stock": {"$gte": bound}},
                {"$inc": {"stock": delta}})].
    The server counts a document as modified when the update changed it. *)
Definition update_one_inc_stock (object_id : string) (bound delta : Z)
    : M Mongo.UpdateResult :=
  fun d =>
    match Mongo.products d !! object_id with
    | Some p =>
        if bound <=? Product.stock p
        then (Mongo.set_products d
                (<[object_id := Product.set_stock p (Product.stock p + delta)]>
                   (Mongo.products d)),
              Ok (Mongo.mkUpdateResult 1 (if delta =? 0 then 0 else 1)))
        else (d, Ok (Mongo.mkUpdateResult 0 0))
    | None => (d, Ok (Mongo.mkUpdateResult 0 0))
    end.

(** [BaseMongoRepository.get_by_id] at [Product]. *)
Definition get_by_id (entity_id : string) : M (option Product.t) :=
  match ObjectId entity_id with
  | None => ret None
  | Some object_id =>
      document <~ find_one object_id ;;
      match document with
      | Some doc => e <~ lift (Product.model_validate doc) ;; ret (Some e)
      | None => ret None
      end
  end.

Definition update_stock (product_id : string) (quantity_change : Z) : M bool :=
  match ObjectId product_id with
  | None => ret false
  | Some object_id =>
      result <~ update_one_inc_stock object_id
                  (if quantity_change <? 0 then - quantity_change else 0)
                  quantity_change ;;
      if Mongo.modified_count result >? 0 then ret true else ret false
  end.

End ProductRepo.

(** ** [app/infrastructure/repositories/order_repository.py] *)

Module OrderRepo.

(** A document read from the collection carries its key as [_id], which
    [_to_entity] turns into its text. *)
Definition find_one (object_id : string) : M (option Order.t) :=
  fun d =>
    (d, Ok (match Mongo.orders d !! object_id with
            | Some doc => Some (Order.set_id doc (Some object_id))
            | None => None
            end)).

(** [insert_one(document)]: a document without [_id] is stored under the
    identifier the driver generates, here [generated]. *)
Definition insert_one (generated : string) (_id : option string) (doc : Order.t)
    : M string :=
  fun d =>
    let key := match _id with Some k => k | None => generated end in
    match Mongo.orders d !! key with
    | Some _ => (d, Raise DuplicateKeyError)
    | None => (Mongo.set_orders d (<[key := doc]> (Mongo.orders d)), Ok key)
    end.

(** [update_one({"_id": object_id}, {"$set": {"order_status": status}})],
    with ["delivered_at"] in the [$set] document when [delivered] is given. *)
Definition update_one_set (object_id : string) (status : OrderStatus.t)
    (delivered : option datetime) : M Mongo.UpdateResult :=
  fun d =>
    match Mongo.orders d !! object_id with
    | Some doc =>
        let doc1 := Order.set_order_status doc status in
        let doc2 := match delivered with
                    | Some t => Order.set_delivered_at doc1 (Some t)
                    | None => doc1
                    end in
        let same :=
          OrderStatus.eqb (Order.order_status doc) status
          && match delivered with
             | Some t => opt_datetime_eqb (Order.delivered_at doc) (Some t)
             | None => true
             end in
        (Mongo.set_orders d (<[object_id := doc2]> (Mongo.orders d)),
         Ok (Mongo.mkUpdateResult 1 (if same then 0 else 1)))
    | None => (d, Ok (Mongo.mkUpdateResult 0 0))
    end.

(** [BaseMongoRepository._to_document]: the [_id] of the document. *)
Definition _to_document_id (entity : Order.t) : result (option string) :=
  match Order.id entity with
  | None => Ok None
  | Some s =>
      if String.eqb s "" then Ok None
      else match ObjectId s with
           | Some k => Ok (Some k)
           | None => Raise InvalidId
           end
  end.

(** [BaseMongoRepository._to_entity] at [Order]. *)
Definition _to_entity (document : option Order.t) : result (option Order.t) :=
  match document with
  | None => Ok None
  | Some doc => e <- Order.model_validate doc ;; Ok (Some e)
  end.

(** [BaseMongoRepository.create] at [Order]. *)
Definition create (generated : string) (entity : Order.t) : M (option Order.t) :=
  _id <~ lift (_to_document_id entity) ;;
  inserted_id <~ insert_one generated _id entity ;;
  created_doc <~ find_one inserted_id ;;
  lift (_to_entity created_doc).

(** [BaseMongoRepository.get_by_id] at [Order]. *)
Definition get_by_id (entity_id : string) : M (option Order.t) :=
  match ObjectId entity_id with
  | None => ret None
  | Some object_id =>
      document <~ find_one object_id ;;
      match document with
      | Some doc => lift (_to_entity (Some doc))
      | None => ret None
      end
  end.

Definition update_status (now : datetime) (order_id : string) (status : OrderStatus.t)
    : M bool :=
  match ObjectId order_id with
  | None => ret false
  | Some object_id =>
      result <~ update_one_set object_id status
                  (if OrderStatus.eqb status OrderStatus.DELIVERED
                   then Some now else None) ;;
      if Mongo.modified_count result >? 0 then ret true else ret false
  end.

Definition mark_as_delivered (now : datetime) (order_id : string)
    (delivered_at : option datetime) : M bool :=
  match ObjectId order_id with
  | None => ret false
  | Some object_id =>
      result <~ update_one_set object_id OrderStatus.DELIVERED
                  (Some (match delivered_at with Some t => t | None => now end)) ;;
      ret (Mongo.modified_count result >? 0)
  end.

(** *** Sales statistics *)

Record stats : Type := mkStats {
  total_orders : Z;
  total_sales : Q;
  average_order_value : Q;
  delivered_orders : Z;
  processing_orders : Z;
  cancelled_orders : Z
}.

(** The [created_at] entry of [match_stage], with its [$gte] and [$lte]
    bounds; [None] is the empty [match_stage]. *)
Definition match_stage (start_date end_date : option datetime)
    : option (option datetime * option datetime) :=
  match start_date, end_date with
  | None, None => None
  | _, _ => Some (start_date, end_date)
  end.

Definition matches (stage : option datetime * option datetime) (doc : Order.t) : bool :=
  match fst stage with Some s => s <=? Order.created_at doc | None => true end
  && match snd stage with Some e => Order.created_at doc <=? e | None => true end.

(** [{"$sum": {"$cond": [{"$eq": ["$order_status", label]}, 1, 0]}}] *)
Definition count_status (s : OrderStatus.t) (docs : list Order.t) : Z :=
  sum_int (map (fun doc => if OrderStatus.eqb (Order.order_status doc) s then 1 else 0) docs).

Definition sum_total_price (docs : list Order.t) : Q :=
  fold_left Qplus (map (fun doc => dec_val (Order.total_price doc)) docs) 0%Q.

(** The [$group] stage with [_id: None]: one group when documents reach
    it, no result at all otherwise. *)
Definition group (docs : list Order.t) : list stats :=
  match docs with
  | [] => []
  | _ :: _ =>
      [ mkStats (sum_int (map (fun _ => 1) docs))
                (sum_total_price docs)
                (sum_total_price docs / inject_Z (Z.of_nat (length docs)))%Q
                (count_status OrderStatus.DELIVERED docs)
                (count_status OrderStatus.PROCESSING docs)
                (count_status OrderStatus.CANCELLED docs) ]
  end.

Definition aggregate (stage : option (option datetime * option datetime))
    : M (list stats) :=
  fun d =>
    let docs := snd <$> map_to_list (Mongo.orders d) in
    let matched := match stage with
                   | Some s => List.filter (matches s) docs
                   | None => docs
                   end in
    (d, Ok (group matched)).

Definition get_sales_stats (start_date end_date : option datetime) : M stats :=
  results <~ aggregate (match_stage start_date end_date) ;;
  match results with
  | stats :: _ => ret stats
  | [] => ret (mkStats 0 0%Q 0%Q 0 0 0)
  end.

End OrderRepo.

(** ** [app/services/order_service.py] *)

Module OrderService.

(** An entry of the [order_items] argument of [create_order]; [price] is
    the value of [Decimal(str(item["price"]))]. *)
Record item_dict : Type := mkItem {
  product : string;
  name : string;
  price : Decimal;
  quantity : Z;
  image : string
}.

Definition get_order (order_id : string) : M Order.t :=
  order <~ OrderRepo.get_by_id order_id ;;
  match order with
  | None => raise (NotFoundError "Order not found")
  | Some o => ret o
  end.

Definition get_user_order (order_id user_id : string) : M Order.t :=
  order <~ get_order order_id ;;
  if negb (String.eqb (Order.user order) user_id)
  then raise (ForbiddenError "Access denied")
  else ret order.

(** The body of the first loop of [create_order]. *)
Definition check_stock (item : item_dict) : M unit :=
  product <~ ProductRepo.get_by_id (product item) ;;
  match product with
  | None => raise (ValidationError ("Product " +:+ OrderService.product item +:+ " not found"))
  | Some p =>
      if Product.stock p <? quantity item
      then raise (ValidationError
                    ("Insufficient stock for " +:+ Product.name p
                     +:+ ". Available: " +:+ pretty (Product.stock p)))
      else ret tt
  end.

(** The body of the second loop of [create_order]: the outcome of
    [update_stock] is dropped. *)
Definition reduce_stock (item : item_dict) : M unit :=
  _ <~ ProductRepo.update_stock (product item) (- quantity item) ;;
  ret tt.

(** [now] is the instant [datetime.utcnow()] returns during the call and
    [generated] the [_id] the driver gives to the inserted document. *)
Definition create_order (now : datetime) (generated : string)
    (user_id : string) (shipping_info : ShippingInfo.t)
    (order_items : list item_dict)
    (items_price tax_price shipping_price : Decimal)
    (payment_info : PaymentInfo.t) : M Order.t :=
  _ <~ for_each check_stock order_items ;;
  shipping <~ lift (ShippingInfo.new
                      (ShippingInfo.address shipping_info)
                      (ShippingInfo.city shipping_info)
                      (ShippingInfo.country shipping_info)
                      (ShippingInfo.postal_code shipping_info)
                      (ShippingInfo.phone_no shipping_info)) ;;
  items <~ lift (rmapM (fun item =>
                          OrderItem.new (product item) (name item) (price item)
                            (quantity item) (image item))
                       order_items) ;;
  payment <~ lift (PaymentInfo.new (PaymentInfo.id payment_info)
                     (PaymentInfo.status payment_info)) ;;
  order <~ lift (Order.new now user_id shipping items items_price tax_price
                   shipping_price (Some payment)
                   (if String.eqb (PaymentInfo.status payment_info) "succeeded"
                    then Some now else None)
                   OrderStatus.PROCESSING) ;;
  created_order <~ OrderRepo.create generated order ;;
  _ <~ for_each reduce_stock order_items ;;
  match created_order with
  | None => raise AttributeError
  | Some o => ret o
  end.

Definition update_order_status (now : datetime) (order_id : string)
    (status : OrderStatus.t) : M Order.t :=
  order <~ get_order order_id ;;
  if negb (Order.can_transition_to order status)
  then raise (ValidationError
                ("Cannot transition from "
                 +:+ OrderStatus.value (Order.order_status order)
                 +:+ " to " +:+ OrderStatus.value status))
  else
    _ <~ OrderRepo.update_status now order_id status ;;
    get_order order_id.

(** The body of the loop of [cancel_order]. *)
Definition restore_stock (item : OrderItem.t) : M unit :=
  _ <~ ProductRepo.update_stock (OrderItem.product item) (OrderItem.quantity item) ;;
  ret tt.

Definition cancel_order (now : datetime) (order_id user_id : string) : M Order.t :=
  order <~ get_user_order order_id user_id ;;
  if negb (Order.can_cancel order)
  then raise (ValidationError "Order cannot be cancelled")
  else
    _ <~ for_each restore_stock (Order.order_items order) ;;
    _ <~ OrderRepo.update_status now order_id OrderStatus.CANCELLED ;;
    get_order order_id.

Definition get_sales_stats (start_date end_date : option datetime)
    : M OrderRepo.stats :=
  OrderRepo.get_sales_stats start_date end_date.

Definition mark_as_delivered (now : datetime) (order_id : string) : M Order.t :=
  order <~ get_order order_id ;;
  if negb (Order.can_transition_to order OrderStatus.DELIVERED)
  then raise (ValidationError
                ("Cannot mark as delivered from status "
                 +:+ OrderStatus.value (Order.order_status order)))
  else
    _ <~ OrderRepo.mark_as_delivered now order_id None ;;
    get_order order_id.

End OrderService.

(** ** Notions of the specification *)

(** The transition table of the specification, section 4.1. *)
Definition spec_allowed_next (current : OrderStatus.t) : list OrderStatus.t :=
  match current with
  | OrderStatus.PROCESSING => [OrderStatus.CONFIRMED; OrderStatus.CANCELLED]
  | OrderStatus.CONFIRMED => [OrderStatus.SHIPPED; OrderStatus.CANCELLED]
  | OrderStatus.SHIPPED => [OrderStatus.OUT_FOR_DELIVERY; OrderStatus.CANCELLED]
  | OrderStatus.OUT_FOR_DELIVERY => [OrderStatus.DELIVERED]
  | OrderStatus.DELIVERED => [OrderStatus.REFUNDED]
  | OrderStatus.CANCELLED => []
  | OrderStatus.REFUNDED => []
  end.

(** The sum of [price * quantity] over the line items. *)
Fixpoint items_total (items : list OrderItem.t) : Z :=
  match items with
  | [] => 0
  | i :: rest => OrderItem.price i * OrderItem.quantity i + items_total rest
  end.

(** "Applying the delta would make the product's stock negative". *)
Definition would_go_negative (d : Mongo.db) (product_id : string) (delta : Z) : Prop :=
  exists oid p,
    ObjectId product_id = Some oid
    /\ Mongo.products d !! oid = Some p
    /\ Product.stock p + delta < 0.

(** An order created at [created] lies inside the optional date bounds. *)
Definition in_date_range (start_date end_date : option datetime) (created : datetime)
    : bool :=
  match start_date with Some s => s <=? created | None => true end
  && match end_date with Some e => created <=? e | None => true end.

(** The stored product that a product id denotes, if any. *)
Definition stored_product (d : Mongo.db) (product_id : string) : option Product.t :=
  match ObjectId product_id with
  | Some oid => Mongo.products d !! oid
  | None => None
  end.

(** Every stored product satisfies the [Product] schema, in particular
    [stock >= 0]. *)
Definition products_valid (d : Mongo.db) : Prop :=
  forall oid doc,
    Mongo.products d !! oid = Some doc -> exists p, Product.model_validate doc = Ok p.

Definition stock_nonneg (d : Mongo.db) : Prop :=
  forall oid p, Mongo.products d !! oid = Some p -> 0 <= Product.stock p.

(** The share of a line [(product_id, q)] that concerns the product [oid]. *)
Definition line_quantity (oid product_id : string) (q : Z) : Z :=
  match ObjectId product_id with
  | Some k => if String.eqb k oid then q else 0
  | None => 0
  end.


(** The quantity of product [oid] held by the line items of a stored order. *)
Fixpoint restored_quantity (oid : string) (items : list OrderItem.t) : Z :=
  match items with
  | [] => 0
  | i :: rest =>
      line_quantity oid (OrderItem.product i) (OrderItem.quantity i)
      + restored_quantity oid rest
  end.

(** A requested line can be served from the stock on record. *)
Definition available (d : Mongo.db) (item : OrderService.item_dict) : Prop :=
  exists p,
    stored_product d (OrderService.product item) = Some p
    /\ OrderService.quantity item <= Product.stock p.

(** The product of a requested line is missing, or its stock is short. *)
Definition unavailable (d : Mongo.db) (item : OrderService.item_dict) : Prop :=
  stored_product d (OrderService.product item) = None
  \/ exists p,
      stored_product d (OrderService.product item) = Some p
      /\ Product.stock p < OrderService.quantity item.

(** *** Requests that the entities accept *)






(** ** Further code of the same files *)

(** The methods of the entities raise the built-in [ValueError] besides the
    exceptions above. *)
Inductive method_result (A : Type) : Type :=
| Returned (a : A)
| RaisedValueError (message : string)
| Raised (e : exn).
Arguments Returned {A} a.
Arguments RaisedValueError {A} message.
Arguments Raised {A} e.

(** *** [Order.update_status] and [Order.mark_as_paid] *)

Module OrderMethods.



(** The method mutates [self]; here it returns the mutated entity. *)
Definition update_status (now : datetime) (self : Order.t) (new_status : OrderStatus.t)
    : method_result Order.t :=
  if negb (Order.can_transition_to self new_status)
  then RaisedValueError
         ("Cannot transition from " +:+ OrderStatus.value (Order.order_status self)
          +:+ " to " +:+ OrderStatus.value new_status)
  else
    let self1 := Order.set_order_status self new_status in
    if OrderStatus.eqb new_status OrderStatus.DELIVERED
    then Returned (Order.set_delivered_at self1 (Some now))
    else Returned self1.


End OrderMethods.

(** *** The stock methods of [Product] *)

Module ProductMethods.

Definition is_in_stock (self : Product.t) : bool := Product.stock self >? 0.

Definition can_fulfill (self : Product.t) (quantity : Z) : bool :=
  Product.stock self >=? quantity.

(** The assignment [self.stock = v], re-checked against [ge=0]. *)
Definition assign_stock (self : Product.t) (v : Z) : method_result Product.t :=
  if 0 <=? v then Returned (Product.set_stock self v)
  else Raised PydanticValidationError.

Definition reduce_stock (self : Product.t) (quantity : Z) : method_result Product.t :=
  if quantity >? Product.stock self
  then RaisedValueError
         ("Cannot reduce stock by " +:+ pretty quantity +:+ ". Only "
          +:+ pretty (Product.stock self) +:+ " available.")
  else assign_stock self (Product.stock self - quantity).

Definition add_stock (self : Product.t) (quantity : Z) : method_result Product.t :=
  if quantity <? 0
  then RaisedValueError "Cannot add negative stock"
  else assign_stock self (Product.stock self + quantity).

End ProductMethods.

(** *** [app/services/product_service.py]: lookup, deletion and stock *)

Module ProductService.



Definition get_product (product_id : string) : M Product.t :=
  product <~ ProductRepo.get_by_id product_id ;;
  match product with
  | None => raise (NotFoundError "Product not found")
  | Some p => ret p
  end.


Definition update_stock (product_id : string) (quantity_change : Z) : M bool :=
  success <~ ProductRepo.update_stock product_id quantity_change ;;
  ret success.

End ProductService.

(** *** Notions for the further properties *)

(** A sequence of statuses in which every step is an accepted transition. *)
Fixpoint legal_path (l : list OrderStatus.t) : bool :=
  match l with
  | a :: rest =>
      match rest with
      | b :: _ => OrderStatus.can_transition_to a b && legal_path rest
      | [] => true
      end
  | [] => true
  end.

(** How far a status is along the life of an order. *)
Definition status_rank (s : OrderStatus.t) : nat :=
  match s with
  | OrderStatus.PROCESSING => 0
  | OrderStatus.CONFIRMED => 1
  | OrderStatus.SHIPPED => 2
  | OrderStatus.OUT_FOR_DELIVERY => 3
  | OrderStatus.CANCELLED => 3
  | OrderStatus.DELIVERED => 4
  | OrderStatus.REFUNDED => 5
  end.

(** Every run of [m], whether it returns or raises, takes the database to
    one that is related to it by [R]. *)
Definition keeps {A : Type} (R : Mongo.db -> Mongo.db -> Prop) (m : M A) : Prop :=
  forall d d' r, m d = (d', r) -> R d d'.

Definition same_db (d d' : Mongo.db) : Prop := d' = d.
Definition same_orders (d d' : Mongo.db) : Prop := Mongo.orders d' = Mongo.orders d.
Definition same_products (d d' : Mongo.db) : Prop := Mongo.products d' = Mongo.products d.

(** The stored products keep their identifiers and names, and stocks that
    were non-negative stay so. *)
Definition inventory_sound (d d' : Mongo.db) : Prop :=
  (forall oid, is_Some (Mongo.products d' !! oid) <-> is_Some (Mongo.products d !! oid))
  /\ (forall oid p p',
         Mongo.products d !! oid = Some p -> Mongo.products d' !! oid = Some p' ->
         Product.name p' = Product.name p
         /\ (0 <= Product.stock p -> 0 <= Product.stock p')).

(** The order document that [order_id] denotes, as it is read: with its
    key as [_id]. *)
Definition stored_order (d : Mongo.db) (order_id : string) : option Order.t :=
  match ObjectId order_id with
  | Some oid => (fun doc => Order.set_id doc (Some oid)) <$> Mongo.orders d !! oid
  | None => None
  end.



(** Between [d] and [d'] no order appeared or vanished, and an order that
    changed did so by an accepted transition of its status, with or without
    a new delivery time. *)
Definition orders_advance (d d' : Mongo.db) : Prop :=
  forall oid,
    match Mongo.orders d !! oid with
    | Some doc =>
        exists doc',
          Mongo.orders d' !! oid = Some doc'
          /\ (doc' = doc
              \/ exists s t,
                   OrderStatus.can_transition_to (Order.order_status doc) s = true
                   /\ doc' = Order.set_delivered_at (Order.set_order_status doc s) t)
    | None => Mongo.orders d' !! oid = None
    end.

(** Every order stored in [d] is stored, unchanged, in [d']. *)
Definition orders_extended (d d' : Mongo.db) : Prop :=
  forall oid doc, Mongo.orders d !! oid = Some doc -> Mongo.orders d' !! oid = Some doc.


(** ** Auxiliary facts *)

Lemma sum_int_from (l : list Z) (a : Z) : fold_left Z.add l a = a + sum_int l.
Proof.
  unfold sum_int. revert a.
  induction l as [|x l IH]; intros a; simpl; [lia|].
  rewrite (IH (a + x)), (IH (0 + x)). lia.
Qed.

Lemma sum_int_cons (x : Z) (l : list Z) : sum_int (x :: l) = x + sum_int l.
Proof. unfold sum_int at 1. simpl. apply sum_int_from. Qed.

Lemma sum_subtotals (items : list OrderItem.t) :
  sum_int (map OrderItem.subtotal items) = items_total items.
Proof.
  induction items as [|i items IH]; [reflexivity|].
  simpl map. rewrite sum_int_cons, IH. reflexivity.
Qed.

Section DecimalFacts.



Lemma dec_val_of_int (n : Z) : (dec_val (dec_of_int n) == inject_Z n)%Q.
Proof. reflexivity. Qed.


Lemma dec_add_scale (a b : Decimal) :
  scale (dec_add a b) = Nat.max (scale a) (scale b).
Proof. reflexivity. Qed.

Lemma dec_to_int_of_int (n : Z) : dec_to_int (dec_of_int n) = Some n.
Proof.
  unfold dec_to_int, dec_of_int; simpl.
  rewrite Z.mod_1_r, Z.div_1_r. reflexivity.
Qed.

End DecimalFacts.

(** ** The status state machine *)

(** C1: [can_transition_to current target] is true exactly when [target] is
    in the allowed-next set that the fixed table gives for [current], and
    false for every other pair; being a function of its two arguments, it
    touches nothing else. *)
Theorem can_transition_to_table (current target : OrderStatus.t) :
  (OrderStatus.can_transition_to current target = true
     <-> In target (spec_allowed_next current))
  /\ (OrderStatus.can_transition_to current target = false
     <-> ~ In target (spec_allowed_next current)).
Proof.
  destruct current, target; simpl; split; split;
    try reflexivity; try discriminate; try tauto;
    intuition discriminate.
Qed.

(** ** The order aggregate *)

Lemma str_field_0 (s : string) : str_field 0 s = Ok (strip s).
Proof. reflexivity. Qed.

(** The outcome of field validation for an order, in closed form. *)
Lemma validate_closed_form (id : option string) (created_at : datetime) (user : string)
    (sh : ShippingInfo.t) (items : list OrderItem.t)
    (ip tax sp tot : Decimal) (pay : option PaymentInfo.t)
    (paid del : option datetime) (st : OrderStatus.t) :
  Order.validate id created_at user sh items ip tax sp tot pay paid del st =
  let ip' := dec_of_int (items_total items) in
  let tot' := dec_add (dec_add ip' tax) sp in
  if (1 <=? length items)%nat && dec_ge0 ip && dec_ge0 tax && dec_ge0 sp
     && dec_ge0 tot && dec_ge0 ip' && dec_ge0 tot'
  then Ok (Order.mk (strip <$> id) created_at (strip user) sh items ip' tax sp
             tot' pay paid del st)
  else Raise PydanticValidationError.
Proof.
  unfold Order.validate.
  assert (Hid : match id with
                | Some s => s' <- str_field 0 s ;; Ok (Some s')
                | None => Ok None
                end = Ok (strip <$> id)) by (destruct id; reflexivity).
  rewrite Hid, str_field_0. cbv zeta.
  destruct items as [|i items]; [reflexivity|].
  change (1 <=? length (i :: items))%nat with true.
  rewrite <- (sum_subtotals (i :: items)).
  unfold Order.calculate_totals, Order.set_items_price, Order.set_total_price.
  cbn -[sum_int map dec_add dec_ge0].
  destruct (dec_ge0 ip); [|reflexivity].
  destruct (dec_ge0 tax); [|reflexivity].
  destruct (dec_ge0 sp); [|reflexivity].
  destruct (dec_ge0 tot); [|reflexivity].
  cbn -[sum_int map dec_add dec_ge0].
  destruct (dec_ge0 (dec_of_int _)); [|reflexivity].
  cbn -[sum_int map dec_add dec_ge0].
  destruct (dec_ge0 (dec_add _ _)); reflexivity.
Qed.

Lemma validate_inv (id : option string) (created_at : datetime) (user : string)
    (sh : ShippingInfo.t) (items : list OrderItem.t)
    (ip tax sp tot : Decimal) (pay : option PaymentInfo.t)
    (paid del : option datetime) (st : OrderStatus.t) (o : Order.t) :
  Order.validate id created_at user sh items ip tax sp tot pay paid del st = Ok o ->
  items <> []
  /\ dec_ge0 ip = true /\ dec_ge0 tax = true /\ dec_ge0 sp = true /\ dec_ge0 tot = true
  /\ dec_ge0 (dec_of_int (items_total items)) = true
  /\ dec_ge0 (dec_add (dec_add (dec_of_int (items_total items)) tax) sp) = true
  /\ o = Order.mk (strip <$> id) created_at (strip user) sh items
           (dec_of_int (items_total items)) tax sp
           (dec_add (dec_add (dec_of_int (items_total items)) tax) sp)
           pay paid del st.
Proof.
  rewrite validate_closed_form. cbv zeta.
  destruct items as [|i items]; [discriminate|].
  change (1 <=? length (i :: items))%nat with true.
  destruct (dec_ge0 ip), (dec_ge0 tax), (dec_ge0 sp), (dec_ge0 tot),
    (dec_ge0 (dec_of_int (items_total (i :: items)))),
    (dec_ge0 (dec_add (dec_add (dec_of_int (items_total (i :: items))) tax) sp));
    simpl; try discriminate.
  intros [= <-]. repeat split; congruence.
Qed.



(** ** Guarded stock updates *)

Lemma update_stock_eval (d : Mongo.db) (product_id oid : string) (p : Product.t)
    (delta : Z) :
  ObjectId product_id = Some oid ->
  Mongo.products d !! oid = Some p ->
  ProductRepo.update_stock product_id delta d =
  if (if delta <? 0 then - delta else 0) <=? Product.stock p
  then (Mongo.set_products d
          (<[oid := Product.set_stock p (Product.stock p + delta)]> (Mongo.products d)),
        Ok (negb (delta =? 0)))
  else (d, Ok false).
Proof.
  intros Hid Hp.
  unfold ProductRepo.update_stock, bind, ProductRepo.update_one_inc_stock, ret.
  rewrite Hid, Hp.
  destruct (_ <=? Product.stock p); [|reflexivity].
  destruct (delta =? 0); reflexivity.
Qed.

Lemma update_stock_missing (d : Mongo.db) (product_id : string) (delta : Z) :
  match ObjectId product_id with
  | Some oid => Mongo.products d !! oid = None
  | None => True
  end ->
  ProductRepo.update_stock product_id delta d = (d, Ok false).
Proof.
  unfold ProductRepo.update_stock, bind, ProductRepo.update_one_inc_stock, ret.
  destruct (ObjectId product_id) as [oid|]; [|reflexivity].
  intros ->. reflexivity.
Qed.

(** C5, as stated, fails: for a product id that denotes no stored product
    the update reports [False] although no stock would become negative,
    even for a positive delta. *)
Lemma update_stock_false_without_negative_stock :
  let d := Mongo.mk ∅ ∅ in
  let product_id := "aaaaaaaaaaaaaaaaaaaaaaaa" in
  ProductRepo.update_stock product_id 5 d = (d, Ok false)
  /\ ~ would_go_negative d product_id 5
  /\ ~ (forall (d : Mongo.db) (product_id : string) (delta : Z),
          snd (ProductRepo.update_stock product_id delta d) = Ok false
          <-> would_go_negative d product_id delta).
Proof.
  intros d product_id.
  assert (Hrun : ProductRepo.update_stock product_id 5 d = (d, Ok false))
    by reflexivity.
  assert (Hneg : ~ would_go_negative d product_id 5).
  { intros (oid & p & _ & Hp & _). simpl in Hp.
    rewrite lookup_empty in Hp. discriminate. }
  split; [exact Hrun|]. split; [exact Hneg|].
  intros H. apply Hneg, H. rewrite Hrun. reflexivity.
Qed.

(** A zero delta modifies nothing, so it is reported as [False] too. *)
Lemma update_stock_zero_delta_false :
  let product_id := "aaaaaaaaaaaaaaaaaaaaaaaa" in
  let d := Mongo.mk {[ product_id := Product.mk "Widget" 5 ]} ∅ in
  snd (ProductRepo.update_stock product_id 0 d) = Ok false.
Proof. vm_compute. reflexivity. Qed.

(** C5, amended: for an id that denotes a stored product with a
    non-negative stock and for a non-zero delta, [update_stock] returns
    [False] exactly when the delta would make the stock negative, and then
    writes nothing; otherwise it returns [True] and the stock has moved by
    the delta.  A positive delta always succeeds on a stored product. *)
Theorem update_stock_guard (d : Mongo.db) (product_id oid : string) (p : Product.t)
    (delta : Z) :
  ObjectId product_id = Some oid ->
  Mongo.products d !! oid = Some p ->
  0 <= Product.stock p ->
  delta <> 0 ->
  (snd (ProductRepo.update_stock product_id delta d) = Ok false
     <-> would_go_negative d product_id delta)
  /\ (Product.stock p + delta < 0 ->
      ProductRepo.update_stock product_id delta d = (d, Ok false))
  /\ (0 <= Product.stock p + delta ->
      ProductRepo.update_stock product_id delta d
      = (Mongo.set_products d
           (<[oid := Product.set_stock p (Product.stock p + delta)]> (Mongo.products d)),
         Ok true))
  /\ (0 < delta -> snd (ProductRepo.update_stock product_id delta d) = Ok true).
Proof.
  intros Hid Hp Hstock Hdelta.
  rewrite (update_stock_eval d product_id oid p delta Hid Hp).
  assert (Hz : (delta =? 0) = false) by (apply Z.eqb_neq; exact Hdelta).
  rewrite Hz. simpl negb.
  assert (Hguard : ((if delta <? 0 then - delta else 0) <=? Product.stock p) = true
                   <-> 0 <= Product.stock p + delta).
  { rewrite Z.leb_le. destruct (Z.ltb_spec delta 0); lia. }
  destruct ((if delta <? 0 then - delta else 0) <=? Product.stock p) eqn:Hg.
  - assert (Hge : 0 <= Product.stock p + delta) by (apply Hguard; reflexivity).
    repeat split; try reflexivity; try (intros; lia).
    + discriminate.
    + intros (oid' & p' & Hid' & Hp' & Hlt).
      rewrite Hid in Hid'. injection Hid' as <-.
      rewrite Hp in Hp'. injection Hp' as <-. lia.
  - assert (Hlt : Product.stock p + delta < 0).
    { destruct (Z.lt_ge_cases (Product.stock p + delta) 0) as [?|Hge]; [assumption|].
      apply Hguard in Hge. discriminate. }
    repeat split; try reflexivity; try (intros; lia).
    intros _. exists oid, p. auto.
Qed.

Lemma update_stock_guard_witness :
  let product_id := "aaaaaaaaaaaaaaaaaaaaaaaa" in
  let d := Mongo.mk {[ product_id := Product.mk "Widget" 5 ]} ∅ in
  (snd (ProductRepo.update_stock product_id (-6) d) = Ok false
     <-> would_go_negative d product_id (-6))
  /\ snd (ProductRepo.update_stock product_id 3 d) = Ok true.
Proof.
  intros product_id d.
  assert (Hid : ObjectId product_id = Some product_id) by reflexivity.
  assert (Hp : Mongo.products d !! product_id = Some (Product.mk "Widget" 5))
    by reflexivity.
  split.
  - apply (update_stock_guard d product_id product_id _ (-6) Hid Hp); simpl; lia.
  - apply (update_stock_guard d product_id product_id _ 3 Hid Hp); simpl; lia.
Defined.

(** ** Sales statistics *)

Lemma filter_all_false {A : Type} (f : A -> bool) (l : list A) :
  (forall x, In x l -> f x = false) -> List.filter f l = [].
Proof.
  induction l as [|x l IH]; intros H; [reflexivity|].
  simpl. rewrite (H x) by (left; reflexivity).
  apply IH. intros y Hy. apply H. right. exact Hy.
Qed.

(** C8: when no stored order lies inside the date bounds, in particular
    when there is no order at all, [get_sales_stats] returns, writes
    nothing, and every field of its result is [0]. *)
Theorem sales_stats_without_match (d : Mongo.db) (start_date end_date : option datetime) :
  (forall oid doc,
      Mongo.orders d !! oid = Some doc ->
      in_date_range start_date end_date (Order.created_at doc) = false) ->
  OrderService.get_sales_stats start_date end_date d
  = (d, Ok (OrderRepo.mkStats 0 0%Q 0%Q 0 0 0)).
Proof.
  intros Hnone.
  unfold OrderService.get_sales_stats, OrderRepo.get_sales_stats, bind,
    OrderRepo.aggregate.
  assert (Hdocs : match OrderRepo.match_stage start_date end_date with
                  | Some s => List.filter (OrderRepo.matches s)
                                (snd <$> map_to_list (Mongo.orders d))
                  | None => snd <$> map_to_list (Mongo.orders d)
                  end = []).
  { destruct (OrderRepo.match_stage start_date end_date) as [s|] eqn:Hs.
    - apply filter_all_false. intros doc Hin.
      apply list_elem_of_In, list_elem_of_fmap in Hin as ([oid doc'] & -> & Hin).
      apply elem_of_map_to_list in Hin. simpl.
      specialize (Hnone oid doc' Hin).
      destruct start_date, end_date; simpl in Hs; try discriminate;
        injection Hs as <-; exact Hnone.
    - destruct start_date, end_date; simpl in Hs; try discriminate.
      assert (Hempty : Mongo.orders d = ∅).
      { apply map_empty. intros oid.
        destruct (Mongo.orders d !! oid) as [doc|] eqn:Hdoc; [|reflexivity].
        specialize (Hnone oid doc Hdoc). discriminate. }
      rewrite Hempty, map_to_list_empty. reflexivity. }
  rewrite Hdocs. reflexivity.
Qed.

Lemma sales_stats_without_match_witness :
  let old := Order.mk None 50 "u1" (ShippingInfo.mk "a" "b" "c" "d" "e")
               [OrderItem.mk "aaaaaaaaaaaaaaaaaaaaaaaa" "Widget" 10 3 "w.png"]
               (mkDecimal 30 0) (mkDecimal 0 2) (mkDecimal 0 2) (mkDecimal 3000 2)
               None None None OrderStatus.PROCESSING in
  let d := Mongo.mk ∅ {[ "0123456789abcdef01234567" := old ]} in
  OrderService.get_sales_stats (Some 100) None d
  = (d, Ok (OrderRepo.mkStats 0 0%Q 0%Q 0 0 0)).
Proof.
  intros old d.
  apply (sales_stats_without_match d (Some 100) None).
  intros oid doc Hdoc. simpl in Hdoc.
  apply lookup_singleton_Some in Hdoc as [_ <-]. reflexivity.
Defined.

(** ** Stripped strings and re-validation of entities *)

Lemma lstrip_head (s : string) :
  lstrip s = EmptyString
  \/ exists c r, lstrip s = String c r /\ Ascii.is_space c = false.
Proof.
  induction s as [|c s IH]; simpl; [left; reflexivity|].
  destruct (Ascii.is_space c) eqn:Hc; [exact IH|].
  right. exists c, s. split; [reflexivity | exact Hc].
Qed.

Lemma rstrip_head (c : ascii) (r : string) :
  Ascii.is_space c = false -> exists r', rstrip (String c r) = String c r'.
Proof.
  intros Hc. simpl. rewrite Hc.
  destruct (rstrip r); eexists; reflexivity.
Qed.

Lemma rstrip_idem (s : string) : rstrip (rstrip s) = rstrip s.
Proof.
  induction s as [|c s IH]; [reflexivity|].
  simpl. destruct (rstrip s) as [|c' r] eqn:Hr.
  - destruct (Ascii.is_space c) eqn:Hc; [reflexivity|].
    simpl. rewrite Hc. reflexivity.
  - change (rstrip (String c (String c' r))) with
      (match rstrip (String c' r) with
       | EmptyString => if Ascii.is_space c then EmptyString else String c EmptyString
       | String a b => String c (String a b)
       end).
    rewrite IH. reflexivity.
Qed.

Lemma strip_idem (s : string) : strip (strip s) = strip s.
Proof.
  unfold strip.
  destruct (lstrip_head s) as [He | (c & r & He & Hc)]; rewrite He.
  - reflexivity.
  - destruct (rstrip_head c r Hc) as (r' & Hr').
    rewrite Hr'. simpl lstrip. rewrite Hc. rewrite <- Hr'. apply rstrip_idem.
Qed.




Lemma str_field_inv (n : nat) (s v : string) :
  str_field n s = Ok v -> v = strip s /\ (n <=? String.length v)%nat = true.
Proof.
  unfold str_field. cbv zeta.
  destruct (n <=? String.length (strip s))%nat eqn:Hn; [|discriminate].
  intros [= <-]. split; [reflexivity | exact Hn].
Qed.

Lemma str_field_idem (n : nat) (s v : string) :
  str_field n s = Ok v -> str_field n v = Ok v.
Proof.
  intros H. apply str_field_inv in H as [-> Hn].
  unfold str_field. cbv zeta. rewrite strip_idem, Hn. reflexivity.
Qed.

Ltac bind_inv H :=
  repeat match type of H with
         | rbind ?c _ = Ok _ =>
             let E := fresh "E" in
             destruct c eqn:E; simpl in H; [|discriminate H]
         end.

Lemma ShippingInfo_new_idem (a c n p h : string) (sh : ShippingInfo.t) :
  ShippingInfo.new a c n p h = Ok sh -> ShippingInfo.model_validate sh = Ok sh.
Proof.
  unfold ShippingInfo.new. intros H. bind_inv H. injection H as <-.
  unfold ShippingInfo.model_validate, ShippingInfo.new; simpl.
  repeat match goal with
         | E : str_field _ _ = Ok _ |- _ => rewrite (str_field_idem _ _ _ E); clear E
         end.
  reflexivity.
Qed.

Lemma PaymentInfo_new_idem (i s : string) (p : PaymentInfo.t) :
  PaymentInfo.new i s = Ok p -> PaymentInfo.model_validate p = Ok p.
Proof.
  unfold PaymentInfo.new. rewrite !str_field_0. cbn [rbind]. intros [= <-].
  unfold PaymentInfo.model_validate, PaymentInfo.new.
  cbn [PaymentInfo.id PaymentInfo.status].
  rewrite !str_field_0, !strip_idem. reflexivity.
Qed.

Lemma OrderItem_new_inv (pr nm : string) (price : Decimal) (q : Z) (im : string)
    (it : OrderItem.t) :
  OrderItem.new pr nm price q im = Ok it ->
  dec_to_int price = Some (OrderItem.price it)
  /\ 0 <= OrderItem.price it
  /\ 1 <= q
  /\ it = OrderItem.mk (strip pr) (strip nm) (OrderItem.price it) q (strip im).
Proof.
  unfold OrderItem.new, OrderItem.price_field, require.
  rewrite !str_field_0. cbn [rbind].
  destruct (dec_to_int price) as [p|]; cbn [rbind]; [|discriminate].
  destruct (Z.leb_spec 0 p); cbn [rbind]; [|discriminate].
  destruct (Z.leb_spec 1 q); cbn [rbind]; [|discriminate].
  intros [= <-]. cbn [OrderItem.price]. auto.
Qed.

Lemma OrderItem_new_idem (pr nm : string) (price : Decimal) (q : Z) (im : string)
    (it : OrderItem.t) :
  OrderItem.new pr nm price q im = Ok it -> OrderItem.model_validate it = Ok it.
Proof.
  intros H. apply OrderItem_new_inv in H as (_ & Hp & Hq & Hit).
  rewrite Hit. set (p := OrderItem.price it) in *. clearbody p. clear Hit.
  unfold OrderItem.model_validate, OrderItem.new, OrderItem.price_field, require.
  cbn [OrderItem.product OrderItem.name OrderItem.price OrderItem.quantity
       OrderItem.image].
  rewrite !str_field_0, !strip_idem, dec_to_int_of_int. cbn [rbind].
  destruct (Z.leb_spec 0 p); [|lia]. cbn [rbind].
  destruct (Z.leb_spec 1 q); [|lia]. reflexivity.
Qed.

Lemma OrderItem_model_validate_inv (doc it : OrderItem.t) :
  OrderItem.model_validate doc = Ok it ->
  1 <= OrderItem.quantity it
  /\ 0 <= OrderItem.price it
  /\ OrderItem.model_validate it = Ok it.
Proof.
  unfold OrderItem.model_validate at 1. intros H.
  pose proof (OrderItem_new_idem _ _ _ _ _ _ H) as Hidem.
  apply OrderItem_new_inv in H as (_ & Hp & Hq & Hit).
  rewrite Hit at 1. simpl. auto.
Qed.

Lemma rmapM_inv {A B : Type} (f : A -> result B) (l : list A) (r : list B) :
  rmapM f l = Ok r -> Forall2 (fun x y => f x = Ok y) l r.
Proof.
  revert r. induction l as [|x l IH]; intros r H; simpl in H.
  - injection H as <-. constructor.
  - bind_inv H. injection H as <-. constructor; [assumption|]. apply IH. reflexivity.
Qed.

Lemma rmapM_fixed {A : Type} (g : A -> result A) (r : list A) :
  Forall (fun y => g y = Ok y) r -> rmapM g r = Ok r.
Proof.
  induction 1 as [|y r Hy _ IH]; simpl; [reflexivity|].
  rewrite Hy. simpl. rewrite IH. reflexivity.
Qed.

Lemma Order_model_validate_inv (doc o : Order.t) :
  Order.model_validate doc = Ok o ->
  exists sh items pay,
    ShippingInfo.model_validate (Order.shipping_info doc) = Ok sh
    /\ rmapM OrderItem.model_validate (Order.order_items doc) = Ok items
    /\ match Order.payment_info doc with
       | None => pay = None
       | Some p => exists p', PaymentInfo.model_validate p = Ok p' /\ pay = Some p'
       end
    /\ Order.validate (Order.id doc) (Order.created_at doc) (Order.user doc) sh items
         (Order.items_price doc) (Order.tax_price doc) (Order.shipping_price doc)
         (Order.total_price doc) pay (Order.paid_at doc) (Order.delivered_at doc)
         (Order.order_status doc) = Ok o.
Proof.
  unfold Order.model_validate. intros H.
  destruct (ShippingInfo.model_validate (Order.shipping_info doc)) as [sh|] eqn:Hsh;
    [|discriminate].
  destruct (rmapM OrderItem.model_validate (Order.order_items doc)) as [items|] eqn:Hit;
    [|discriminate].
  cbn [rbind] in H.
  destruct (Order.payment_info doc) as [p|].
  - destruct (PaymentInfo.model_validate p) as [p'|] eqn:Hp; [|discriminate].
    cbn [rbind] in H. exists sh, items, (Some p'). eauto 10.
  - cbn [rbind] in H. exists sh, items, None. auto.
Qed.

(** What a validated order inherits from its document. *)
Lemma Order_model_validate_fields (doc o : Order.t) :
  Order.model_validate doc = Ok o ->
  Order.order_status o = Order.order_status doc
  /\ Order.delivered_at o = Order.delivered_at doc
  /\ Order.paid_at o = Order.paid_at doc
  /\ Order.user o = strip (Order.user doc)
  /\ Order.id o = strip <$> Order.id doc
  /\ Order.order_items o <> []
  /\ Order.items_price o = dec_of_int (items_total (Order.order_items o))
  /\ Order.total_price o
     = dec_add (dec_add (Order.items_price o) (Order.tax_price o)) (Order.shipping_price o)
  /\ Forall (fun i => 1 <= OrderItem.quantity i /\ 0 <= OrderItem.price i)
       (Order.order_items o).
Proof.
  intros H. apply Order_model_validate_inv in H as (sh & items & pay & _ & Hit & _ & H).
  apply validate_inv in H as (Hne & _ & _ & _ & _ & _ & _ & ->).
  cbn. repeat split; try assumption.
  apply rmapM_inv in Hit. clear -Hit.
  induction Hit as [|x y l r Hxy _ IH]; constructor; [|exact IH].
  apply OrderItem_model_validate_inv in Hxy. tauto.
Qed.

(** Validation does not look at the status or at the delivery time. *)
Lemma Order_model_validate_set_status (doc o : Order.t) (s : OrderStatus.t) :
  Order.model_validate doc = Ok o ->
  Order.model_validate (Order.set_order_status doc s) = Ok (Order.set_order_status o s).
Proof.
  intros H. apply Order_model_validate_inv in H as (sh & items & pay & Hsh & Hit & Hp & H).
  apply validate_inv in H as (Hne & H1 & H2 & H3 & H4 & H5 & H6 & ->).
  unfold Order.model_validate.
  cbn [Order.set_order_status Order.shipping_info Order.order_items Order.payment_info
       Order.id Order.created_at Order.user Order.items_price Order.tax_price
       Order.shipping_price Order.total_price Order.paid_at Order.delivered_at
       Order.order_status].
  rewrite Hsh, Hit. cbn [rbind].
  assert (Hpay : match Order.payment_info doc with
                 | Some pi => pi' <- PaymentInfo.model_validate pi ;; Ok (Some pi')
                 | None => Ok None
                 end = Ok pay).
  { destruct (Order.payment_info doc) as [p|].
    - destruct Hp as (p' & -> & ->). reflexivity.
    - subst pay. reflexivity. }
  rewrite Hpay. cbn [rbind].
  rewrite validate_closed_form. cbv zeta.
  destruct items as [|i items]; [congruence|].
  change (1 <=? length (i :: items))%nat with true.
  rewrite H1, H2, H3, H4, H5, H6. reflexivity.
Qed.

Lemma Order_model_validate_set_delivered (doc o : Order.t) (t : option datetime) :
  Order.model_validate doc = Ok o ->
  Order.model_validate (Order.set_delivered_at doc t) = Ok (Order.set_delivered_at o t).
Proof.
  intros H. apply Order_model_validate_inv in H as (sh & items & pay & Hsh & Hit & Hp & H).
  apply validate_inv in H as (Hne & H1 & H2 & H3 & H4 & H5 & H6 & ->).
  unfold Order.model_validate.
  cbn [Order.set_delivered_at Order.shipping_info Order.order_items Order.payment_info
       Order.id Order.created_at Order.user Order.items_price Order.tax_price
       Order.shipping_price Order.total_price Order.paid_at Order.delivered_at
       Order.order_status].
  rewrite Hsh, Hit. cbn [rbind].
  assert (Hpay : match Order.payment_info doc with
                 | Some pi => pi' <- PaymentInfo.model_validate pi ;; Ok (Some pi')
                 | None => Ok None
                 end = Ok pay).
  { destruct (Order.payment_info doc) as [p|].
    - destruct Hp as (p' & -> & ->). reflexivity.
    - subst pay. reflexivity. }
  rewrite Hpay. cbn [rbind].
  rewrite validate_closed_form. cbv zeta.
  destruct items as [|i items]; [congruence|].
  change (1 <=? length (i :: items))%nat with true.
  rewrite H1, H2, H3, H4, H5, H6. reflexivity.
Qed.


(** ** Running the coroutines *)

Lemma bind_Ok {A B : Type} (m : M A) (k : A -> M B) (d d' : Mongo.db) (a : A) :
  m d = (d', Ok a) -> bind m k d = k a d'.
Proof. unfold bind. intros ->. reflexivity. Qed.

Lemma bind_Raise {A B : Type} (m : M A) (k : A -> M B) (d d' : Mongo.db) (e : exn) :
  m d = (d', Raise e) -> bind m k d = (d', Raise e).
Proof. unfold bind. intros ->. reflexivity. Qed.

Lemma bind_lift_Ok {A B : Type} (r : result A) (k : A -> M B) (d : Mongo.db) (a : A) :
  r = Ok a -> bind (lift r) k d = k a d.
Proof. intros ->. reflexivity. Qed.

Lemma Product_model_validate_inv (doc p : Product.t) :
  Product.model_validate doc = Ok p ->
  p = Product.mk (strip (Product.name doc)) (Product.stock doc)
  /\ 0 <= Product.stock doc.
Proof.
  unfold Product.model_validate, require. intros H.
  destruct (str_field 1 (Product.name doc)) as [n|] eqn:Hn; [|discriminate].
  cbn [rbind] in H.
  destruct (String.length n <=? 100)%nat; [|discriminate]. cbn [rbind] in H.
  destruct (Z.leb_spec 0 (Product.stock doc)); [|discriminate]. cbn [rbind] in H.
  injection H as <-. apply str_field_inv in Hn as [-> _]. auto.
Qed.

Lemma products_valid_stock_nonneg (d : Mongo.db) : products_valid d -> stock_nonneg d.
Proof.
  intros Hv oid p Hp. destruct (Hv oid p Hp) as (p' & Hp').
  apply Product_model_validate_inv in Hp'. tauto.
Qed.

(** *** The stock check of [create_order] *)

Lemma check_stock_available (d : Mongo.db) (item : OrderService.item_dict) :
  products_valid d -> available d item -> OrderService.check_stock item d = (d, Ok tt).
Proof.
  intros Hv (doc & Hs & Hq).
  unfold stored_product in Hs.
  unfold OrderService.check_stock, ProductRepo.get_by_id, bind, ProductRepo.find_one.
  destruct (ObjectId (OrderService.product item)) as [oid|]; [|discriminate].
  rewrite Hs. destruct (Hv oid doc Hs) as (p & Hp).
  unfold lift. rewrite Hp. unfold ret.
  apply Product_model_validate_inv in Hp as [-> _]. cbn [Product.stock].
  destruct (Z.ltb_spec (Product.stock doc) (OrderService.quantity item)); [lia|].
  reflexivity.
Qed.

Lemma check_stock_unavailable (d : Mongo.db) (item : OrderService.item_dict) :
  products_valid d -> unavailable d item ->
  exists msg, OrderService.check_stock item d = (d, Raise (ValidationError msg)).
Proof.
  intros Hv Hu.
  unfold OrderService.check_stock, ProductRepo.get_by_id, bind, ProductRepo.find_one.
  unfold unavailable, stored_product in Hu.
  destruct (ObjectId (OrderService.product item)) as [oid|].
  - destruct Hu as [Hs | (doc & Hs & Hq)]; rewrite Hs.
    + eexists. reflexivity.
    + destruct (Hv oid doc Hs) as (p & Hp).
      unfold lift. rewrite Hp. unfold ret.
      apply Product_model_validate_inv in Hp as [-> _]. cbn [Product.stock Product.name].
      destruct (Z.ltb_spec (Product.stock doc) (OrderService.quantity item)); [|lia].
      eexists. reflexivity.
  - eexists. reflexivity.
Qed.

Lemma available_or_unavailable (d : Mongo.db) (item : OrderService.item_dict) :
  available d item \/ unavailable d item.
Proof.
  unfold available, unavailable.
  destruct (stored_product d (OrderService.product item)) as [p|].
  - destruct (Z.le_gt_cases (OrderService.quantity item) (Product.stock p)).
    + left. eauto.
    + right. right. exists p. split; [reflexivity | lia].
  - right. left. reflexivity.
Qed.

Lemma available_not_unavailable (d : Mongo.db) (item : OrderService.item_dict) :
  available d item -> unavailable d item -> False.
Proof.
  intros (p & Hp & Hq) [Hn | (p' & Hp' & Hq')].
  - congruence.
  - rewrite Hp in Hp'. injection Hp' as <-. lia.
Qed.


Lemma check_some_unavailable (d : Mongo.db) (items : list OrderService.item_dict) :
  products_valid d -> Exists (unavailable d) items ->
  exists msg, for_each OrderService.check_stock items d = (d, Raise (ValidationError msg)).
Proof.
  intros Hv. induction items as [|item items IH]; intros Hex.
  - inversion Hex.
  - cbn [for_each].
    destruct (available_or_unavailable d item) as [Ha | Hu].
    + rewrite (bind_Ok _ _ _ _ _ (check_stock_available d item Hv Ha)).
      apply IH. inversion Hex as [? ? Hu|]; subst; [|assumption].
      destruct (available_not_unavailable d item Ha Hu).
    + destruct (check_stock_unavailable d item Hv Hu) as (msg & Hmsg).
      exists msg. apply bind_Raise. exact Hmsg.
Qed.

(** ** Rejected orders *)

(** C2, as stated, fails: an order for a product that does not exist is
    refused with [ValidationError], not with [NotFoundError]. *)
Lemma create_order_missing_product_raises_ValidationError :
  let d := Mongo.mk ∅ ∅ in
  let item := OrderService.mkItem "aaaaaaaaaaaaaaaaaaaaaaaa" "Widget"
                (mkDecimal 1000 2) 3 "w.png" in
  let run := OrderService.create_order 100 "0123456789abcdef01234567" "u1"
               (ShippingInfo.mk "1 Main St" "Town" "Land" "12345" "555") [item]
               (mkDecimal 30 0) (mkDecimal 150 2) (mkDecimal 5 0)
               (PaymentInfo.mk "tx1" "succeeded") d in
  stored_product d (OrderService.product item) = None
  /\ run = (d, Raise (ValidationError "Product aaaaaaaaaaaaaaaaaaaaaaaa not found"))
  /\ forall msg, snd run <> Raise (NotFoundError msg).
Proof.
  intros d item run.
  assert (Hrun : run = (d, Raise (ValidationError
                                    "Product aaaaaaaaaaaaaaaaaaaaaaaa not found")))
    by (vm_compute; reflexivity).
  split; [reflexivity|]. split; [exact Hrun|].
  intros msg. rewrite Hrun. discriminate.
Qed.

(** C2, amended: when the product of some requested line does not exist,
    or every product exists but the stock of one is below the requested
    quantity, [create_order] raises the application's [ValidationError];
    it does so before any write, so every stock is unchanged and no order
    is stored. *)
Theorem create_order_rejects_unavailable (d : Mongo.db) (now : datetime)
    (generated user_id : string) (shipping_info : ShippingInfo.t)
    (order_items : list OrderService.item_dict)
    (items_price tax_price shipping_price : Decimal) (payment_info : PaymentInfo.t) :
  products_valid d ->
  Exists (unavailable d) order_items ->
  exists msg,
    OrderService.create_order now generated user_id shipping_info order_items
      items_price tax_price shipping_price payment_info d
    = (d, Raise (ValidationError msg)).
Proof.
  intros Hv Hex.
  destruct (check_some_unavailable d order_items Hv Hex) as (msg & Hmsg).
  exists msg. unfold OrderService.create_order.
  apply bind_Raise. exact Hmsg.
Qed.

Lemma create_order_rejects_unavailable_witness :
  let product_id := "aaaaaaaaaaaaaaaaaaaaaaaa" in
  let d := Mongo.mk {[ product_id := Product.mk "Widget" 5 ]} ∅ in
  exists msg,
    OrderService.create_order 100 "0123456789abcdef01234567" "u1"
      (ShippingInfo.mk "1 Main St" "Town" "Land" "12345" "555")
      [OrderService.mkItem product_id "Widget" (mkDecimal 1000 2) 7 "w.png"]
      (mkDecimal 70 0) (mkDecimal 150 2) (mkDecimal 5 0)
      (PaymentInfo.mk "tx1" "succeeded") d
    = (d, Raise (ValidationError msg)).
Proof.
  intros product_id d.
  apply create_order_rejects_unavailable.
  - intros oid doc Hdoc. simpl in Hdoc.
    apply lookup_singleton_Some in Hdoc as [_ <-].
    eexists. reflexivity.
  - apply Exists_cons_hd. right.
    exists (Product.mk "Widget" 5). split; [reflexivity | simpl; lia].
Defined.

(** ** Stock movements *)

Lemma set_stock_same (p : Product.t) : Product.set_stock p (Product.stock p + 0) = p.
Proof. destruct p as [n s]. unfold Product.set_stock. simpl. f_equal. lia. Qed.


Lemma line_quantity_cases (oid product_id : string) (q : Z) :
  line_quantity oid product_id q = q \/ line_quantity oid product_id q = 0.
Proof.
  unfold line_quantity. destruct (ObjectId product_id) as [k|]; [|auto].
  destruct (String.eqb k oid); auto.
Qed.




Lemma restored_quantity_nonneg (oid : string) (items : list OrderItem.t) :
  Forall (fun i => 0 <= OrderItem.quantity i) items ->
  0 <= restored_quantity oid items.
Proof.
  induction 1 as [|i items Hi _ IH]; simpl; [lia|].
  destruct (line_quantity_cases oid (OrderItem.product i) (OrderItem.quantity i));
    lia.
Qed.



(** ** Accepted orders *)








Lemma Forall2_new_items (order_items : list OrderService.item_dict)
    (items : list OrderItem.t) :
  Forall2 (fun item it =>
             OrderItem.new (OrderService.product item) (OrderService.name item)
               (OrderService.price item) (OrderService.quantity item)
               (OrderService.image item) = Ok it) order_items items ->
  Forall (fun i => 1 <= OrderItem.quantity i /\ 0 <= OrderItem.price i) items
  /\ Forall (fun i => OrderItem.model_validate i = Ok i) items
  /\ (order_items <> [] -> items <> []).
Proof.
  induction 1 as [|item it l r Hnew _ (IH1 & IH2 & _)].
  - repeat split; [constructor | constructor | auto].
  - pose proof (OrderItem_new_idem _ _ _ _ _ _ Hnew) as Hidem.
    apply OrderItem_new_inv in Hnew as (_ & Hp & Hq & Hit).
    repeat split.
    + constructor; [|exact IH1]. rewrite Hit at 1. simpl. lia.
    + constructor; assumption.
    + discriminate.
Qed.

(** [BaseMongoRepository.create] on an entity fresh from the constructor. *)
Lemma create_fresh (d : Mongo.db) (generated : string) (order o : Order.t) :
  Order.id order = None ->
  Mongo.orders d !! generated = None ->
  Order.model_validate (Order.set_id order (Some generated)) = Ok o ->
  OrderRepo.create generated order d
  = (Mongo.set_orders d (<[generated := order]> (Mongo.orders d)), Ok (Some o)).
Proof.
  intros Hid Hfresh Hval.
  unfold OrderRepo.create, OrderRepo._to_document_id. rewrite Hid.
  unfold bind, lift, OrderRepo.insert_one. rewrite Hfresh.
  unfold OrderRepo.find_one. cbn [Mongo.set_orders Mongo.orders].
  rewrite lookup_insert_eq. unfold OrderRepo._to_entity. rewrite Hval. reflexivity.
Qed.



(** A price with a fractional part does not pass the [int] field of
    [OrderItem]: the call raises pydantic's error although the product is in
    stock. *)
Lemma create_order_fractional_price_rejected :
  let product_id := "aaaaaaaaaaaaaaaaaaaaaaaa" in
  let d := Mongo.mk {[ product_id := Product.mk "Widget" 5 ]} ∅ in
  OrderService.create_order 100 "0123456789abcdef01234567" "u1"
    (ShippingInfo.mk "1 Main St" "Town" "Land" "12345" "555")
    [OrderService.mkItem product_id "Widget" (mkDecimal 999 2) 3 "w.png"]
    (mkDecimal 2997 2) (mkDecimal 150 2) (mkDecimal 5 0)
    (PaymentInfo.mk "tx1" "succeeded") d
  = (d, Raise PydanticValidationError).
Proof. vm_compute. reflexivity. Qed.



(** ** Operations on a stored order *)

Lemma get_order_found (d : Mongo.db) (order_id oid : string) (doc o : Order.t) :
  ObjectId order_id = Some oid ->
  Mongo.orders d !! oid = Some doc ->
  Order.model_validate (Order.set_id doc (Some oid)) = Ok o ->
  OrderService.get_order order_id d = (d, Ok o).
Proof.
  intros Hid Hdoc Hval.
  unfold OrderService.get_order, OrderRepo.get_by_id. rewrite Hid.
  unfold bind, OrderRepo.find_one, lift, OrderRepo._to_entity.
  rewrite Hdoc, Hval. reflexivity.
Qed.

Lemma update_status_found (d : Mongo.db) (now : datetime) (order_id oid : string)
    (doc : Order.t) (status : OrderStatus.t) :
  ObjectId order_id = Some oid ->
  Mongo.orders d !! oid = Some doc ->
  exists b,
    OrderRepo.update_status now order_id status d
    = (Mongo.set_orders d
         (<[oid := if OrderStatus.eqb status OrderStatus.DELIVERED
                   then Order.set_delivered_at (Order.set_order_status doc status)
                          (Some now)
                   else Order.set_order_status doc status]> (Mongo.orders d)),
       Ok b).
Proof.
  intros Hid Hdoc.
  unfold OrderRepo.update_status. rewrite Hid.
  unfold bind, OrderRepo.update_one_set. rewrite Hdoc.
  destruct (OrderStatus.eqb status OrderStatus.DELIVERED);
    match goal with
    | |- context [if ?c >? 0 then _ else _] => destruct (c >? 0)
    end; eexists; reflexivity.
Qed.

(** A legal transition is applied and the order is read back. *)
Lemma update_order_status_legal (d : Mongo.db) (now : datetime) (order_id oid : string)
    (doc o : Order.t) (status : OrderStatus.t) :
  ObjectId order_id = Some oid ->
  Mongo.orders d !! oid = Some doc ->
  Order.model_validate (Order.set_id doc (Some oid)) = Ok o ->
  OrderStatus.can_transition_to (Order.order_status o) status = true ->
  let stamp (x : Order.t) :=
    if OrderStatus.eqb status OrderStatus.DELIVERED
    then Order.set_delivered_at (Order.set_order_status x status) (Some now)
    else Order.set_order_status x status in
  OrderService.update_order_status now order_id status d
  = (Mongo.set_orders d (<[oid := stamp doc]> (Mongo.orders d)), Ok (stamp o)).
Proof.
  intros Hid Hdoc Hval Hcan stamp.
  unfold OrderService.update_order_status.
  rewrite (bind_Ok _ _ _ _ _ (get_order_found d order_id oid doc o Hid Hdoc Hval)).
  unfold Order.can_transition_to. rewrite Hcan. cbn [negb].
  destruct (update_status_found d now order_id oid doc status Hid Hdoc) as (b & Hb).
  fold (stamp doc) in Hb.
  rewrite (bind_Ok _ _ _ _ _ Hb).
  apply (get_order_found _ order_id oid (stamp doc)); [exact Hid | |].
  - cbn [Mongo.set_orders Mongo.orders]. apply lookup_insert_eq.
  - unfold stamp. destruct (OrderStatus.eqb status OrderStatus.DELIVERED).
    + apply (Order_model_validate_set_delivered
               (Order.set_order_status (Order.set_id doc (Some oid)) status)).
      apply Order_model_validate_set_status. exact Hval.
    + apply (Order_model_validate_set_status (Order.set_id doc (Some oid))).
      exact Hval.
Qed.

(** An illegal transition is refused before anything is written. *)
Lemma update_order_status_illegal (d : Mongo.db) (now : datetime) (order_id oid : string)
    (doc o : Order.t) (status : OrderStatus.t) :
  ObjectId order_id = Some oid ->
  Mongo.orders d !! oid = Some doc ->
  Order.model_validate (Order.set_id doc (Some oid)) = Ok o ->
  OrderStatus.can_transition_to (Order.order_status o) status = false ->
  exists msg,
    OrderService.update_order_status now order_id status d
    = (d, Raise (ValidationError msg)).
Proof.
  intros Hid Hdoc Hval Hcan.
  unfold OrderService.update_order_status.
  rewrite (bind_Ok _ _ _ _ _ (get_order_found d order_id oid doc o Hid Hdoc Hval)).
  unfold Order.can_transition_to. rewrite Hcan. cbn [negb].
  eexists. reflexivity.
Qed.



(** ** Cancellation *)





(** ** What a successful [create_order] went through *)

Lemma check_stock_pure (item : OrderService.item_dict) (d d' : Mongo.db)
    (r : result unit) :
  OrderService.check_stock item d = (d', r) -> d' = d.
Proof.
  unfold OrderService.check_stock, ProductRepo.get_by_id, bind, ProductRepo.find_one,
    lift, ret, raise.
  destruct (ObjectId (OrderService.product item)) as [oid|].
  - destruct (Mongo.products d !! oid) as [doc|].
    + destruct (Product.model_validate doc) as [p|].
      * destruct (Product.stock p <? OrderService.quantity item); congruence.
      * congruence.
    + congruence.
  - congruence.
Qed.

Lemma check_all_pure (items : list OrderService.item_dict) (d d' : Mongo.db)
    (r : result unit) :
  for_each OrderService.check_stock items d = (d', r) -> d' = d.
Proof.
  revert d d' r. induction items as [|item items IH]; intros d d' r H.
  - injection H as <- _. reflexivity.
  - cbn [for_each] in H. unfold bind in H.
    destruct (OrderService.check_stock item d) as [d0 [[]|e]] eqn:Hc;
      apply check_stock_pure in Hc as ->.
    + exact (IH _ _ _ H).
    + congruence.
Qed.

Lemma update_stock_total (product_id : string) (delta : Z) (d : Mongo.db) :
  exists d' b,
    ProductRepo.update_stock product_id delta d = (d', Ok b)
    /\ Mongo.orders d' = Mongo.orders d.
Proof.
  unfold ProductRepo.update_stock, bind, ProductRepo.update_one_inc_stock, ret.
  destruct (ObjectId product_id) as [oid|]; [|eauto].
  destruct (Mongo.products d !! oid) as [p|]; [|eauto].
  destruct (_ <=? Product.stock p); [|eauto].
  destruct (delta =? 0); eauto.
Qed.

(** The second loop never raises and never touches the orders. *)
Lemma reduce_total (items : list OrderService.item_dict) (d : Mongo.db) :
  exists d',
    for_each OrderService.reduce_stock items d = (d', Ok tt)
    /\ Mongo.orders d' = Mongo.orders d.
Proof.
  revert d. induction items as [|i items IH]; intros d; [eauto|].
  destruct (update_stock_total (OrderService.product i) (- OrderService.quantity i) d)
    as (d1 & b & Hrun & Hord).
  destruct (IH d1) as (d' & Hrun' & Hord').
  exists d'. split; [|congruence].
  cbn [for_each]. unfold OrderService.reduce_stock at 1.
  unfold bind at 1. unfold bind at 1. rewrite Hrun. unfold ret at 1. exact Hrun'.
Qed.

Lemma create_order_inv (d d' : Mongo.db) (now : datetime)
    (generated user_id : string) (shipping_info : ShippingInfo.t)
    (order_items : list OrderService.item_dict)
    (items_price tax_price shipping_price : Decimal) (payment_info : PaymentInfo.t)
    (o : Order.t) :
  OrderService.create_order now generated user_id shipping_info order_items
    items_price tax_price shipping_price payment_info d = (d', Ok o) ->
  exists shipping items order,
    ShippingInfo.new (ShippingInfo.address shipping_info)
      (ShippingInfo.city shipping_info) (ShippingInfo.country shipping_info)
      (ShippingInfo.postal_code shipping_info) (ShippingInfo.phone_no shipping_info)
    = Ok shipping
    /\ rmapM (fun item =>
                OrderItem.new (OrderService.product item) (OrderService.name item)
                  (OrderService.price item) (OrderService.quantity item)
                  (OrderService.image item)) order_items = Ok items
    /\ Order.new now user_id shipping items items_price tax_price shipping_price
         (Some (PaymentInfo.mk (strip (PaymentInfo.id payment_info))
                  (strip (PaymentInfo.status payment_info))))
         (if String.eqb (PaymentInfo.status payment_info) "succeeded"
          then Some now else None)
         OrderStatus.PROCESSING = Ok order
    /\ Mongo.orders d !! generated = None
    /\ Order.model_validate (Order.set_id order (Some generated)) = Ok o
    /\ for_each OrderService.reduce_stock order_items
         (Mongo.set_orders d (<[generated := order]> (Mongo.orders d))) = (d', Ok tt).
Proof.
  unfold OrderService.create_order. intros H.
  unfold bind at 1 in H.
  destruct (for_each OrderService.check_stock order_items d) as [d0 [[]|e]] eqn:Hc;
    [|discriminate].
  apply check_all_pure in Hc as ->.
  unfold bind at 1 in H. unfold lift at 1 in H.
  destruct (ShippingInfo.new _ _ _ _ _) as [shipping|] eqn:Hsh; [|discriminate].
  unfold bind at 1 in H. unfold lift at 1 in H.
  destruct (rmapM _ order_items) as [items|] eqn:Hit; [|discriminate].
  unfold bind at 1 in H. unfold lift at 1 in H.
  change (PaymentInfo.new (PaymentInfo.id payment_info)
            (PaymentInfo.status payment_info))
    with (Ok (PaymentInfo.mk (strip (PaymentInfo.id payment_info))
                (strip (PaymentInfo.status payment_info)))) in H.
  cbv iota beta in H.
  unfold bind at 1 in H. unfold lift at 1 in H.
  destruct (Order.new _ _ _ _ _ _ _ _ _ _) as [order|] eqn:Hnew; [|discriminate].
  exists shipping, items, order.
  split; [reflexivity|]. split; [reflexivity|]. split; [exact Hnew|].
  assert (Hid : Order.id order = None).
  { unfold Order.new in Hnew. apply validate_inv in Hnew.
    destruct Hnew as (_ & _ & _ & _ & _ & _ & _ & ->). reflexivity. }
  unfold bind at 1 in H.
  unfold OrderRepo.create, OrderRepo._to_document_id in H. rewrite Hid in H.
  unfold bind at 1 2 3, lift at 1, OrderRepo.insert_one in H.
  destruct (Mongo.orders d !! generated) eqn:Hfresh; [discriminate|].
  unfold OrderRepo.find_one, lift, OrderRepo._to_entity in H.
  cbn [Mongo.set_orders Mongo.orders] in H.
  rewrite lookup_insert_eq in H.
  destruct (Order.model_validate (Order.set_id order (Some generated)))
    as [o'|] eqn:Hval; [|discriminate].
  cbn [rbind] in H.
  destruct (reduce_total order_items
              (Mongo.set_orders d (<[generated := order]> (Mongo.orders d))))
    as (d2 & Hred & _).
  unfold bind at 1 in H. rewrite Hred in H.
  unfold ret in H. injection H as <- <-.
  repeat split. exact Hred.
Qed.

(** ** Supplied totals *)




(** ** Orders always have a line item *)

(** C10: the constructor rejects an empty [order_items] list whatever the
    other arguments are; an order that leaves the constructor, or that is
    read back from a document, has at least one line item; hence the order
    that [create_order] returns and the document it stored have one, and so
    has every order that [get_order] returns. *)
Theorem order_items_never_empty :
  (forall now user sh ip tax sp pay paid st,
      Order.new now user sh [] ip tax sp pay paid st = Raise PydanticValidationError)
  /\ (forall now user sh items ip tax sp pay paid st o,
         Order.new now user sh items ip tax sp pay paid st = Ok o ->
         items <> [] /\ Order.order_items o <> [])
  /\ (forall doc o,
         Order.model_validate doc = Ok o ->
         Order.order_items doc <> [] /\ Order.order_items o <> [])
  /\ (forall d d' now generated user_id shipping_info order_items items_price
        tax_price shipping_price payment_info o,
         OrderService.create_order now generated user_id shipping_info order_items
           items_price tax_price shipping_price payment_info d = (d', Ok o) ->
         Order.order_items o <> []
         /\ exists doc,
              Mongo.orders d' !! generated = Some doc
              /\ Order.id o = Some (strip generated)
              /\ Order.order_items doc <> [])
  /\ (forall d d' order_id o,
         OrderService.get_order order_id d = (d', Ok o) -> Order.order_items o <> []).
Proof.
  assert (Hnew : forall now user sh items ip tax sp pay paid st o,
             Order.new now user sh items ip tax sp pay paid st = Ok o ->
             items <> [] /\ Order.order_items o <> []).
  { unfold Order.new. intros * H.
    apply validate_inv in H as (Hne & _ & _ & _ & _ & _ & _ & ->). auto. }
  assert (Hread : forall doc o,
             Order.model_validate doc = Ok o ->
             Order.order_items doc <> [] /\ Order.order_items o <> []).
  { intros doc o H.
    apply Order_model_validate_inv in H as (sh & items & pay & _ & Hit & _ & H).
    apply validate_inv in H as (Hne & _ & _ & _ & _ & _ & _ & ->).
    split; [|exact Hne].
    intros Hnil. rewrite Hnil in Hit. injection Hit as <-. congruence. }
  split; [|split; [exact Hnew | split; [exact Hread | split]]].
  - intros. unfold Order.new. rewrite validate_closed_form. reflexivity.
  - intros * H.
    apply create_order_inv in H as (sh & items & order & _ & _ & Hn & _ & Hval & Hred).
    destruct (Hnew _ _ _ _ _ _ _ _ _ _ _ Hn) as [_ Hne].
    destruct (Hread _ _ Hval) as [_ Hne'].
    destruct (Order_model_validate_fields _ _ Hval) as (_ & _ & _ & _ & Hid & _).
    split; [exact Hne'|].
    destruct (reduce_total order_items
                (Mongo.set_orders d (<[generated := order]> (Mongo.orders d))))
      as (d2 & Hred' & Hord).
    rewrite Hred in Hred'. injection Hred' as <-.
    exists order. rewrite Hord. cbn [Mongo.set_orders Mongo.orders].
    rewrite lookup_insert_eq. auto.
  - intros d d' order_id o H.
    unfold OrderService.get_order, OrderRepo.get_by_id, bind in H.
    destruct (ObjectId order_id) as [oid|]; [|discriminate].
    unfold OrderRepo.find_one, lift, OrderRepo._to_entity, ret, raise in H.
    destruct (Mongo.orders d !! oid) as [doc|]; [|discriminate].
    destruct (Order.model_validate (Order.set_id doc (Some oid))) as [e|] eqn:Hval;
      [|discriminate].
    cbn [rbind] in H. injection H as _ <-.
    apply (Hread _ _ Hval).
Qed.

Lemma order_items_never_empty_witness :
  let sh := ShippingInfo.mk "1 Main St" "Town" "Land" "12345" "555" in
  let items := [OrderItem.mk "aaaaaaaaaaaaaaaaaaaaaaaa" "Widget" 10 3 "w.png"] in
  let o := Order.mk None 100 "u1" sh items (mkDecimal 30 0) (mkDecimal 150 2)
             (mkDecimal 5 0) (mkDecimal 3650 2) None None None
             OrderStatus.PROCESSING in
  Order.new 100 "u1" sh [] (mkDecimal 0 0) (mkDecimal 150 2) (mkDecimal 5 0)
    None None OrderStatus.PROCESSING
  = Raise PydanticValidationError
  /\ Order.new 100 "u1" sh items (mkDecimal 0 0) (mkDecimal 150 2) (mkDecimal 5 0)
       None None OrderStatus.PROCESSING = Ok o
  /\ Order.order_items o <> [].
Proof.
  intros sh items o.
  destruct order_items_never_empty as (Hempty & Hnew & _).
  assert (H : Order.new 100 "u1" sh items (mkDecimal 0 0) (mkDecimal 150 2)
                (mkDecimal 5 0) None None OrderStatus.PROCESSING = Ok o)
    by reflexivity.
  split; [apply Hempty|]. split; [exact H|].
  exact (proj2 (Hnew _ _ _ _ _ _ _ _ _ _ _ H)).
Defined.

(** ** The shape of the transition graph *)

Lemma can_transition_rank (a b : OrderStatus.t) :
  OrderStatus.can_transition_to a b = true -> (status_rank a < status_rank b)%nat.
Proof. destruct a, b; simpl; intros H; try discriminate H; lia. Qed.

Lemma legal_path_cons (a : OrderStatus.t) (l : list OrderStatus.t) :
  legal_path (a :: l) = true ->
  legal_path l = true
  /\ Forall (fun b => (status_rank a < status_rank b)%nat) l.
Proof.
  revert a. induction l as [|b l IH]; intros a H.
  - split; [reflexivity | constructor].
  - cbn [legal_path] in H. apply andb_prop in H as [Hab Hrest].
    pose proof (can_transition_rank a b Hab) as Hlt.
    destruct (IH b Hrest) as [_ Hb].
    split; [exact Hrest|].
    constructor; [exact Hlt|].
    eapply Forall_impl; [exact Hb|]. simpl. intros c Hc. lia.
Qed.

Lemma legal_path_length (a : OrderStatus.t) (l : list OrderStatus.t) :
  legal_path (a :: l) = true -> (length (a :: l) + status_rank a <= 6)%nat.
Proof.
  revert a. induction l as [|b l IH]; intros a H.
  - destruct a; simpl; lia.
  - cbn [legal_path] in H. apply andb_prop in H as [Hab Hrest].
    pose proof (can_transition_rank a b Hab).
    specialize (IH b Hrest). simpl in *. lia.
Qed.

(** X1: along any sequence of accepted transitions no status occurs twice,
    and the sequence visits at most six statuses, that is, an order changes
    status at most five times. *)
Theorem transitions_make_progress (l : list OrderStatus.t) :
  legal_path l = true -> NoDup l /\ (length l <= 6)%nat.
Proof.
  intros H. split.
  - induction l as [|a l IH]; [constructor|].
    destruct (legal_path_cons a l H) as [Hrest Hlt].
    constructor; [|exact (IH Hrest)].
    intros Hin. rewrite Forall_forall in Hlt. specialize (Hlt a Hin). lia.
  - destruct l as [|a l]; [simpl; lia|].
    pose proof (legal_path_length a l H). lia.
Qed.

Lemma transitions_make_progress_witness :
  let l := [OrderStatus.PROCESSING; OrderStatus.CONFIRMED; OrderStatus.SHIPPED;
            OrderStatus.OUT_FOR_DELIVERY; OrderStatus.DELIVERED;
            OrderStatus.REFUNDED] in
  legal_path l = true /\ NoDup l /\ (length l <= 6)%nat.
Proof.
  intros l. split; [reflexivity|].
  exact (transitions_make_progress l eq_refl).
Defined.

(** X2: a status is cancellable exactly when the transition table accepts
    the step from it to [CANCELLED]. *)
Theorem cancellable_iff_cancel_is_legal (s : OrderStatus.t) :
  OrderStatus.is_cancellable s
  = OrderStatus.can_transition_to s OrderStatus.CANCELLED.
Proof. destruct s; reflexivity. Qed.

(** X3: the statuses that no transition leaves are [CANCELLED] and
    [REFUNDED]; [is_final] holds for these two and for [DELIVERED], which the
    table still lets move to [REFUNDED], and for nothing else; a final
    status is never cancellable. *)
Theorem final_statuses_and_table (s : OrderStatus.t) :
  ((forall t, OrderStatus.can_transition_to s t = false)
     <-> s = OrderStatus.CANCELLED \/ s = OrderStatus.REFUNDED)
  /\ (OrderStatus.is_final s = true
      <-> s = OrderStatus.DELIVERED
          \/ forall t, OrderStatus.can_transition_to s t = false)
  /\ (forall t, OrderStatus.is_final s = true ->
                OrderStatus.can_transition_to s t = true ->
                s = OrderStatus.DELIVERED /\ t = OrderStatus.REFUNDED)
  /\ (OrderStatus.is_final s = true -> OrderStatus.is_cancellable s = false).
Proof.
  split; [|split; [|split]].
  - split.
    + intros H. destruct s; auto.
      * specialize (H OrderStatus.CONFIRMED). discriminate H.
      * specialize (H OrderStatus.SHIPPED). discriminate H.
      * specialize (H OrderStatus.OUT_FOR_DELIVERY). discriminate H.
      * specialize (H OrderStatus.DELIVERED). discriminate H.
      * specialize (H OrderStatus.REFUNDED). discriminate H.
    + intros [-> | ->] t; destruct t; reflexivity.
  - split.
    + intros H. destruct s; try discriminate H; auto;
        right; intros t; destruct t; reflexivity.
    + intros [-> | H]; [reflexivity|].
      destruct s; try reflexivity.
      * specialize (H OrderStatus.CONFIRMED). discriminate H.
      * specialize (H OrderStatus.SHIPPED). discriminate H.
      * specialize (H OrderStatus.OUT_FOR_DELIVERY). discriminate H.
      * specialize (H OrderStatus.DELIVERED). discriminate H.
  - intros t Hf Ht. destruct s; try discriminate Hf; destruct t; try discriminate Ht.
    auto.
  - intros Hf. destruct s; try discriminate Hf; reflexivity.
Qed.

(** ** What the coroutines leave of the database *)

Section Keeps.

Variable R : Mongo.db -> Mongo.db -> Prop.
Hypothesis R_refl : forall d, R d d.
Hypothesis R_trans : forall d1 d2 d3, R d1 d2 -> R d2 d3 -> R d1 d3.

Lemma keeps_ret {A : Type} (a : A) : keeps R (ret a).
Proof. intros d d' r [= <- _]. apply R_refl. Qed.

Lemma keeps_raise {A : Type} (e : exn) : keeps R (@raise A e).
Proof. intros d d' r [= <- _]. apply R_refl. Qed.

Lemma keeps_lift {A : Type} (x : result A) : keeps R (lift x).
Proof. intros d d' r [= <- _]. apply R_refl. Qed.

Lemma keeps_bind {A B : Type} (m : M A) (k : A -> M B) :
  keeps R m -> (forall a, keeps R (k a)) -> keeps R (bind m k).
Proof.
  intros Hm Hk d d' r H. unfold bind in H.
  destruct (m d) as [d1 [a|e]] eqn:Hmd.
  - eapply R_trans; [exact (Hm _ _ _ Hmd) | exact (Hk a _ _ _ H)].
  - injection H as <- _. exact (Hm _ _ _ Hmd).
Qed.

Lemma keeps_for_each {A : Type} (body : A -> M unit) (l : list A) :
  (forall x, keeps R (body x)) -> keeps R (for_each body l).
Proof.
  intros Hbody. induction l as [|x l IH]; cbn [for_each].
  - apply keeps_ret.
  - apply keeps_bind; [apply Hbody | intros _; exact IH].
Qed.

End Keeps.

Lemma keeps_weaken {A : Type} (R R' : Mongo.db -> Mongo.db -> Prop) (m : M A) :
  (forall d d', R d d' -> R' d d') -> keeps R m -> keeps R' m.
Proof. intros Himp Hm d d' r H. apply Himp. exact (Hm _ _ _ H). Qed.

Lemma same_db_refl (d : Mongo.db) : same_db d d.
Proof. reflexivity. Qed.

Lemma same_db_trans (d1 d2 d3 : Mongo.db) : same_db d1 d2 -> same_db d2 d3 -> same_db d1 d3.
Proof. unfold same_db. congruence. Qed.

Lemma same_orders_refl (d : Mongo.db) : same_orders d d.
Proof. reflexivity. Qed.

Lemma same_orders_trans (d1 d2 d3 : Mongo.db) :
  same_orders d1 d2 -> same_orders d2 d3 -> same_orders d1 d3.
Proof. unfold same_orders. congruence. Qed.

Lemma same_products_refl (d : Mongo.db) : same_products d d.
Proof. reflexivity. Qed.

Lemma same_products_trans (d1 d2 d3 : Mongo.db) :
  same_products d1 d2 -> same_products d2 d3 -> same_products d1 d3.
Proof. unfold same_products. congruence. Qed.

Lemma inventory_sound_refl (d : Mongo.db) : inventory_sound d d.
Proof.
  split; [tauto|]. intros oid p p' Hp Hp'. rewrite Hp in Hp'. injection Hp' as <-. auto.
Qed.

Lemma inventory_sound_trans (d1 d2 d3 : Mongo.db) :
  inventory_sound d1 d2 -> inventory_sound d2 d3 -> inventory_sound d1 d3.
Proof.
  intros [Hk1 Hv1] [Hk2 Hv2]. split.
  - intros oid. rewrite Hk2. apply Hk1.
  - intros oid p p3 Hp Hp3.
    assert (Hsome : is_Some (Mongo.products d2 !! oid)).
    { apply Hk1. rewrite Hp. eauto. }
    destruct Hsome as [p2 Hp2].
    destruct (Hv1 oid p p2 Hp Hp2) as [Hn1 Hs1].
    destruct (Hv2 oid p2 p3 Hp2 Hp3) as [Hn2 Hs2].
    split; [congruence | auto].
Qed.

Lemma same_db_same_products (d d' : Mongo.db) : same_db d d' -> same_products d d'.
Proof. unfold same_db, same_products. intros ->. reflexivity. Qed.

Lemma same_products_inventory_sound (d d' : Mongo.db) :
  same_products d d' -> inventory_sound d d'.
Proof.
  unfold same_products. intros H. split.
  - intros oid. rewrite H. tauto.
  - intros oid p p' Hp Hp'. rewrite H, Hp in Hp'. injection Hp' as <-. auto.
Qed.

Lemma db_eta (d : Mongo.db) : Mongo.mk (Mongo.products d) (Mongo.orders d) = d.
Proof. destruct d. reflexivity. Qed.

(** The outcome of [update_stock], for every identifier and delta. *)
Lemma update_stock_cases (product_id : string) (delta : Z) (d : Mongo.db) :
  ProductRepo.update_stock product_id delta d = (d, Ok false)
  \/ exists oid p,
       ObjectId product_id = Some oid
       /\ Mongo.products d !! oid = Some p
       /\ 0 <= Product.stock p
       /\ 0 <= Product.stock p + delta
       /\ ProductRepo.update_stock product_id delta d
          = (Mongo.set_products d
               (<[oid := Product.set_stock p (Product.stock p + delta)]>
                  (Mongo.products d)),
             Ok (negb (delta =? 0))).
Proof.
  destruct (ObjectId product_id) as [oid|] eqn:Hid.
  - destruct (Mongo.products d !! oid) as [p|] eqn:Hp.
    + rewrite (update_stock_eval d product_id oid p delta Hid Hp).
      destruct (Z.leb_spec (if delta <? 0 then - delta else 0) (Product.stock p))
        as [Hle|Hgt]; [|left; reflexivity].
      assert (Hb : 0 <= Product.stock p /\ 0 <= Product.stock p + delta)
        by (revert Hle; destruct (Z.ltb_spec delta 0); intros; lia).
      right. exists oid, p. repeat split; first [reflexivity | assumption | apply Hb].
    + left. apply update_stock_missing. rewrite Hid. exact Hp.
  - left. apply update_stock_missing. rewrite Hid. exact I.
Qed.

Lemma update_stock_keeps_orders (product_id : string) (delta : Z) :
  keeps same_orders (ProductRepo.update_stock product_id delta).
Proof.
  intros d d' r H.
  destruct (update_stock_cases product_id delta d)
    as [Hrun | (oid & p & _ & _ & _ & _ & Hrun)];
    rewrite Hrun in H; injection H as <- _; reflexivity.
Qed.

Lemma update_stock_keeps_inventory (product_id : string) (delta : Z) :
  keeps inventory_sound (ProductRepo.update_stock product_id delta).
Proof.
  intros d d' r H.
  destruct (update_stock_cases product_id delta d)
    as [Hrun | (oid & p & _ & Hp & H0 & H1 & Hrun)];
    rewrite Hrun in H; injection H as <- _; [apply inventory_sound_refl|].
  unfold inventory_sound. cbn [Mongo.set_products Mongo.products]. split.
  - intros k. destruct (decide (oid = k)) as [<-|Hne].
    + rewrite lookup_insert_eq, Hp. split; eauto.
    + rewrite lookup_insert_ne by exact Hne. tauto.
  - intros k q q' Hq Hq'. destruct (decide (oid = k)) as [<-|Hne].
    + rewrite lookup_insert_eq in Hq'. injection Hq' as <-.
      rewrite Hp in Hq. injection Hq as <-. simpl. auto.
    + rewrite lookup_insert_ne in Hq' by exact Hne.
      rewrite Hq in Hq'. injection Hq' as <-. auto.
Qed.

(** X4: [update_stock] never raises and never touches the orders; whatever
    the identifier and the delta, no product appears, vanishes or changes its
    name, and a stock that was non-negative stays non-negative.  When it
    reports [False] the database is exactly as before; when it reports
    [True] the stock of the denoted product, and only that, has moved by the
    delta. *)
Theorem update_stock_keeps_inventory_sound (product_id : string) (delta : Z)
    (d : Mongo.db) :
  exists d' b,
    ProductRepo.update_stock product_id delta d = (d', Ok b)
    /\ Mongo.orders d' = Mongo.orders d
    /\ inventory_sound d d'
    /\ (b = false -> d' = d)
    /\ (b = true ->
        exists oid p,
          ObjectId product_id = Some oid
          /\ Mongo.products d !! oid = Some p
          /\ Mongo.products d'
             = <[oid := Product.set_stock p (Product.stock p + delta)]>
                 (Mongo.products d)).
Proof.
  destruct (update_stock_cases product_id delta d)
    as [Hrun | (oid & p & Hid & Hp & H0 & H1 & Hrun)].
  - exists d, false. split; [exact Hrun|]. split; [reflexivity|].
    split; [apply inventory_sound_refl|]. split; [reflexivity | discriminate].
  - eexists _, _. split; [exact Hrun|]. split; [reflexivity|].
    split; [exact (update_stock_keeps_inventory product_id delta _ _ _ Hrun)|].
    split.
    + intros Hb. apply negb_false_iff, Z.eqb_eq in Hb. subst delta.
      unfold Mongo.set_products. rewrite set_stock_same.
      rewrite (insert_id _ _ _ Hp). apply db_eta.
    + intros _. exists oid, p. auto.
Qed.

Lemma keeps_reads {A : Type} (R : Mongo.db -> Mongo.db -> Prop) (m : M A) :
  (forall d, R d d) -> (forall d, fst (m d) = d) -> keeps R m.
Proof.
  intros Hrefl Hfst d d' r H. specialize (Hfst d). rewrite H in Hfst.
  simpl in Hfst. subst d'. apply Hrefl.
Qed.

Ltac keeps_step Hrefl Htrans :=
  first
    [ apply (keeps_ret _ Hrefl)
    | apply (keeps_raise _ Hrefl)
    | apply (keeps_lift _ Hrefl)
    | apply (keeps_reads _ _ Hrefl); intros ?; reflexivity
    | apply (keeps_bind _ Htrans); [|intros ?]
    | apply (keeps_for_each _ Hrefl Htrans); intros ?
    | match goal with
      | |- keeps _ (match ?x with _ => _ end) => destruct x
      | |- keeps _ (if ?c then _ else _) => destruct c
      end ].

Lemma ProductRepo_get_by_id_reads (entity_id : string) :
  keeps same_db (ProductRepo.get_by_id entity_id).
Proof.
  unfold ProductRepo.get_by_id.
  repeat keeps_step same_db_refl same_db_trans.
Qed.

Lemma OrderRepo_get_by_id_reads (entity_id : string) :
  keeps same_db (OrderRepo.get_by_id entity_id).
Proof.
  unfold OrderRepo.get_by_id.
  repeat keeps_step same_db_refl same_db_trans.
Qed.

Lemma get_order_reads (order_id : string) :
  keeps same_db (OrderService.get_order order_id).
Proof.
  unfold OrderService.get_order.
  apply (keeps_bind _ same_db_trans); [apply OrderRepo_get_by_id_reads | intros ?].
  repeat keeps_step same_db_refl same_db_trans.
Qed.

Lemma get_user_order_reads (order_id user_id : string) :
  keeps same_db (OrderService.get_user_order order_id user_id).
Proof.
  unfold OrderService.get_user_order.
  apply (keeps_bind _ same_db_trans); [apply get_order_reads | intros ?].
  repeat keeps_step same_db_refl same_db_trans.
Qed.

Lemma get_sales_stats_reads (start_date end_date : option datetime) :
  keeps same_db (OrderService.get_sales_stats start_date end_date).
Proof.
  unfold OrderService.get_sales_stats, OrderRepo.get_sales_stats.
  repeat keeps_step same_db_refl same_db_trans.
Qed.

Lemma get_product_reads (product_id : string) :
  keeps same_db (ProductService.get_product product_id).
Proof.
  unfold ProductService.get_product.
  apply (keeps_bind _ same_db_trans); [apply ProductRepo_get_by_id_reads | intros ?].
  repeat keeps_step same_db_refl same_db_trans.
Qed.

Lemma check_stock_reads (item : OrderService.item_dict) :
  keeps same_db (OrderService.check_stock item).
Proof.
  unfold OrderService.check_stock.
  apply (keeps_bind _ same_db_trans); [apply ProductRepo_get_by_id_reads | intros ?].
  repeat keeps_step same_db_refl same_db_trans.
Qed.

Lemma insert_one_keeps_products (generated : string) (_id : option string)
    (doc : Order.t) :
  keeps same_products (OrderRepo.insert_one generated _id doc).
Proof.
  intros d d' r H. unfold OrderRepo.insert_one in H.
  destruct (Mongo.orders d !! _); injection H as <- _; reflexivity.
Qed.

Lemma update_one_set_keeps_products (object_id : string) (status : OrderStatus.t)
    (delivered : option datetime) :
  keeps same_products (OrderRepo.update_one_set object_id status delivered).
Proof.
  intros d d' r H. unfold OrderRepo.update_one_set in H.
  destruct (Mongo.orders d !! object_id); injection H as <- _; reflexivity.
Qed.

Lemma OrderRepo_create_keeps_products (generated : string) (entity : Order.t) :
  keeps same_products (OrderRepo.create generated entity).
Proof.
  unfold OrderRepo.create.
  apply (keeps_bind _ same_products_trans);
    [apply (keeps_lift _ same_products_refl) | intros ?].
  apply (keeps_bind _ same_products_trans);
    [apply insert_one_keeps_products | intros ?].
  repeat keeps_step same_products_refl same_products_trans.
Qed.

Lemma OrderRepo_update_status_keeps_products (now : datetime) (order_id : string)
    (status : OrderStatus.t) :
  keeps same_products (OrderRepo.update_status now order_id status).
Proof.
  unfold OrderRepo.update_status.
  destruct (ObjectId order_id); [|apply (keeps_ret _ same_products_refl)].
  apply (keeps_bind _ same_products_trans);
    [apply update_one_set_keeps_products | intros ?].
  repeat keeps_step same_products_refl same_products_trans.
Qed.

Lemma OrderRepo_mark_as_delivered_keeps_products (now : datetime) (order_id : string)
    (delivered_at : option datetime) :
  keeps same_products (OrderRepo.mark_as_delivered now order_id delivered_at).
Proof.
  unfold OrderRepo.mark_as_delivered.
  destruct (ObjectId order_id); [|apply (keeps_ret _ same_products_refl)].
  apply (keeps_bind _ same_products_trans);
    [apply update_one_set_keeps_products | intros ?].
  repeat keeps_step same_products_refl same_products_trans.
Qed.

Lemma get_order_keeps_products (order_id : string) :
  keeps same_products (OrderService.get_order order_id).
Proof.
  exact (keeps_weaken _ _ _ same_db_same_products (get_order_reads order_id)).
Qed.

Lemma update_order_status_keeps_products (now : datetime) (order_id : string)
    (status : OrderStatus.t) :
  keeps same_products (OrderService.update_order_status now order_id status).
Proof.
  unfold OrderService.update_order_status.
  apply (keeps_bind _ same_products_trans);
    [apply get_order_keeps_products | intros ?].
  destruct (negb _); [apply (keeps_raise _ same_products_refl)|].
  apply (keeps_bind _ same_products_trans);
    [apply OrderRepo_update_status_keeps_products | intros ?].
  apply get_order_keeps_products.
Qed.

Lemma mark_as_delivered_keeps_products (now : datetime) (order_id : string) :
  keeps same_products (OrderService.mark_as_delivered now order_id).
Proof.
  unfold OrderService.mark_as_delivered.
  apply (keeps_bind _ same_products_trans);
    [apply get_order_keeps_products | intros ?].
  destruct (negb _); [apply (keeps_raise _ same_products_refl)|].
  apply (keeps_bind _ same_products_trans);
    [apply OrderRepo_mark_as_delivered_keeps_products | intros ?].
  apply get_order_keeps_products.
Qed.

Lemma reads_keep_inventory {A : Type} (m : M A) :
  keeps same_db m -> keeps inventory_sound m.
Proof.
  apply keeps_weaken. intros d d' H.
  apply same_products_inventory_sound, same_db_same_products, H.
Qed.

Lemma products_kept_keep_inventory {A : Type} (m : M A) :
  keeps same_products m -> keeps inventory_sound m.
Proof. apply keeps_weaken. exact same_products_inventory_sound. Qed.

Lemma create_order_keeps_inventory (now : datetime) (generated user_id : string)
    (shipping_info : ShippingInfo.t) (order_items : list OrderService.item_dict)
    (items_price tax_price shipping_price : Decimal) (payment_info : PaymentInfo.t) :
  keeps inventory_sound
    (OrderService.create_order now generated user_id shipping_info order_items
       items_price tax_price shipping_price payment_info).
Proof.
  unfold OrderService.create_order.
  apply (keeps_bind _ inventory_sound_trans).
  { apply (keeps_for_each _ inventory_sound_refl inventory_sound_trans).
    intros item. apply reads_keep_inventory, check_stock_reads. }
  intros _.
  do 4 (apply (keeps_bind _ inventory_sound_trans);
        [apply (keeps_lift _ inventory_sound_refl) | intros ?]).
  apply (keeps_bind _ inventory_sound_trans).
  { apply products_kept_keep_inventory, OrderRepo_create_keeps_products. }
  intros created.
  apply (keeps_bind _ inventory_sound_trans).
  { apply (keeps_for_each _ inventory_sound_refl inventory_sound_trans).
    intros item. unfold OrderService.reduce_stock.
    apply (keeps_bind _ inventory_sound_trans);
      [apply update_stock_keeps_inventory | intros ?].
    apply (keeps_ret _ inventory_sound_refl). }
  intros _. destruct created;
    [apply (keeps_ret _ inventory_sound_refl) | apply (keeps_raise _ inventory_sound_refl)].
Qed.

Lemma cancel_order_keeps_inventory (now : datetime) (order_id user_id : string) :
  keeps inventory_sound (OrderService.cancel_order now order_id user_id).
Proof.
  unfold OrderService.cancel_order.
  apply (keeps_bind _ inventory_sound_trans);
    [apply reads_keep_inventory, get_user_order_reads | intros order].
  destruct (negb _); [apply (keeps_raise _ inventory_sound_refl)|].
  apply (keeps_bind _ inventory_sound_trans).
  { apply (keeps_for_each _ inventory_sound_refl inventory_sound_trans).
    intros item. unfold OrderService.restore_stock.
    apply (keeps_bind _ inventory_sound_trans);
      [apply update_stock_keeps_inventory | intros ?].
    apply (keeps_ret _ inventory_sound_refl). }
  intros _.
  apply (keeps_bind _ inventory_sound_trans);
    [apply products_kept_keep_inventory, OrderRepo_update_status_keeps_products
    | intros ?].
  apply reads_keep_inventory, get_order_reads.
Qed.

(** X5: whatever its arguments and whether it returns or raises, no
    operation of the order service, and no stock update of the product
    service, makes a product appear, vanish or change its name, and none
    turns a non-negative stock into a negative one. *)
Theorem services_keep_inventory_sound :
  (forall now generated user_id shipping_info order_items items_price tax_price
          shipping_price payment_info,
      keeps inventory_sound
        (OrderService.create_order now generated user_id shipping_info order_items
           items_price tax_price shipping_price payment_info))
  /\ (forall now order_id user_id,
         keeps inventory_sound (OrderService.cancel_order now order_id user_id))
  /\ (forall now order_id status,
         keeps inventory_sound (OrderService.update_order_status now order_id status))
  /\ (forall now order_id,
         keeps inventory_sound (OrderService.mark_as_delivered now order_id))
  /\ (forall product_id quantity_change,
         keeps inventory_sound (ProductService.update_stock product_id quantity_change)).
Proof.
  split; [exact create_order_keeps_inventory|].
  split; [exact cancel_order_keeps_inventory|].
  split.
  { intros. apply products_kept_keep_inventory, update_order_status_keeps_products. }
  split.
  { intros. apply products_kept_keep_inventory, mark_as_delivered_keeps_products. }
  intros. unfold ProductService.update_stock.
  apply (keeps_bind _ inventory_sound_trans);
    [apply update_stock_keeps_inventory | intros ?].
  apply (keeps_ret _ inventory_sound_refl).
Qed.

(** X6: the queries of the order service ([get_order], [get_user_order],
    [get_sales_stats]) leave the database exactly as it was, and the two
    status operations ([update_order_status], [mark_as_delivered]) never
    touch the products, whether they return or raise. *)
Theorem queries_never_write :
  (forall order_id, keeps same_db (OrderService.get_order order_id))
  /\ (forall order_id user_id,
         keeps same_db (OrderService.get_user_order order_id user_id))
  /\ (forall start_date end_date,
         keeps same_db (OrderService.get_sales_stats start_date end_date))
  /\ (forall now order_id status,
         keeps same_products (OrderService.update_order_status now order_id status))
  /\ (forall now order_id,
         keeps same_products (OrderService.mark_as_delivered now order_id)).
Proof.
  split; [exact get_order_reads|].
  split; [exact get_user_order_reads|].
  split; [exact get_sales_stats_reads|].
  split; [exact update_order_status_keeps_products|].
  exact mark_as_delivered_keeps_products.
Qed.

(** ** The operations of the order service, case by case *)

Lemma get_order_eval (order_id : string) (d : Mongo.db) :
  OrderService.get_order order_id d
  = (d, match stored_order d order_id with
        | Some doc => Order.model_validate doc
        | None => Raise (NotFoundError "Order not found")
        end).
Proof.
  unfold OrderService.get_order, OrderRepo.get_by_id, stored_order.
  destruct (ObjectId order_id) as [oid|]; [|reflexivity].
  unfold bind, OrderRepo.find_one, lift, OrderRepo._to_entity, ret, raise.
  destruct (Mongo.orders d !! oid) as [doc|]; [|reflexivity].
  cbn [fmap option_fmap option_map].
  destruct (Order.model_validate (Order.set_id doc (Some oid))); reflexivity.
Qed.

Lemma stored_order_inv (d : Mongo.db) (order_id : string) (doc' : Order.t) :
  stored_order d order_id = Some doc' ->
  exists oid doc,
    ObjectId order_id = Some oid
    /\ Mongo.orders d !! oid = Some doc
    /\ doc' = Order.set_id doc (Some oid).
Proof.
  unfold stored_order.
  destruct (ObjectId order_id) as [oid|]; [|discriminate].
  destruct (Mongo.orders d !! oid) as [doc|] eqn:Hdoc; [|discriminate].
  intros [= <-]. exists oid, doc. auto.
Qed.

(** What [get_order] returned was stored and passed validation. *)
Lemma get_order_inv (order_id : string) (d d' : Mongo.db) (o : Order.t) :
  OrderService.get_order order_id d = (d', Ok o) ->
  d' = d
  /\ exists oid doc,
       ObjectId order_id = Some oid
       /\ Mongo.orders d !! oid = Some doc
       /\ Order.model_validate (Order.set_id doc (Some oid)) = Ok o.
Proof.
  rewrite get_order_eval. intros [= <- H]. split; [reflexivity|].
  destruct (stored_order d order_id) as [doc'|] eqn:Hs; [|discriminate].
  apply stored_order_inv in Hs as (oid & doc & Hid & Hdoc & ->). eauto.
Qed.

Lemma get_order_raises (order_id : string) (d d' : Mongo.db) (e : exn) :
  OrderService.get_order order_id d = (d', Raise e) -> d' = d.
Proof. rewrite get_order_eval. intros [= <- _]. reflexivity. Qed.

Lemma restore_total (items : list OrderItem.t) (d : Mongo.db) :
  exists d',
    for_each OrderService.restore_stock items d = (d', Ok tt)
    /\ Mongo.orders d' = Mongo.orders d.
Proof.
  revert d. induction items as [|i items IH]; intros d; [eauto|].
  destruct (update_stock_total (OrderItem.product i) (OrderItem.quantity i) d)
    as (d1 & b & Hrun & Hord).
  destruct (IH d1) as (d' & Hrun' & Hord').
  exists d'. split; [|congruence].
  cbn [for_each]. unfold OrderService.restore_stock at 1.
  unfold bind at 1. unfold bind at 1. rewrite Hrun. unfold ret at 1. exact Hrun'.
Qed.

Lemma mark_as_delivered_found (d : Mongo.db) (now : datetime) (order_id oid : string)
    (doc : Order.t) :
  ObjectId order_id = Some oid ->
  Mongo.orders d !! oid = Some doc ->
  exists b,
    OrderRepo.mark_as_delivered now order_id None d
    = (Mongo.set_orders d
         (<[oid := Order.set_delivered_at
                     (Order.set_order_status doc OrderStatus.DELIVERED) (Some now)]>
            (Mongo.orders d)),
       Ok b).
Proof.
  intros Hid Hdoc.
  unfold OrderRepo.mark_as_delivered. rewrite Hid.
  unfold bind, OrderRepo.update_one_set, ret. rewrite Hdoc.
  eexists. reflexivity.
Qed.

(** [update_order_status]: either it raises and the database is as before,
    or the stored order took an accepted transition. *)
Lemma update_order_status_cases (now : datetime) (order_id : string)
    (status : OrderStatus.t) (d : Mongo.db) :
  (exists e, OrderService.update_order_status now order_id status d = (d, Raise e))
  \/ exists oid doc o,
       ObjectId order_id = Some oid
       /\ Mongo.orders d !! oid = Some doc
       /\ Order.model_validate (Order.set_id doc (Some oid)) = Ok o
       /\ OrderStatus.can_transition_to (Order.order_status o) status = true
       /\ OrderService.update_order_status now order_id status d
          = (Mongo.set_orders d
               (<[oid := if OrderStatus.eqb status OrderStatus.DELIVERED
                         then Order.set_delivered_at
                                (Order.set_order_status doc status) (Some now)
                         else Order.set_order_status doc status]> (Mongo.orders d)),
             Ok (if OrderStatus.eqb status OrderStatus.DELIVERED
                 then Order.set_delivered_at
                        (Order.set_order_status o status) (Some now)
                 else Order.set_order_status o status)).
Proof.
  destruct (OrderService.get_order order_id d) as [d0 [o|e]] eqn:Hget.
  - apply get_order_inv in Hget as (-> & oid & doc & Hid & Hdoc & Hval).
    destruct (OrderStatus.can_transition_to (Order.order_status o) status) eqn:Hcan.
    + right. exists oid, doc, o. repeat split; try assumption.
      exact (update_order_status_legal d now order_id oid doc o status Hid Hdoc Hval Hcan).
    + left.
      destruct (update_order_status_illegal d now order_id oid doc o status
                  Hid Hdoc Hval Hcan) as (msg & Hmsg).
      eauto.
  - pose proof (get_order_raises _ _ _ _ Hget) as ->.
    left. exists e. unfold OrderService.update_order_status.
    apply bind_Raise. exact Hget.
Qed.

Lemma mark_as_delivered_cases (now : datetime) (order_id : string) (d : Mongo.db) :
  (exists e, OrderService.mark_as_delivered now order_id d = (d, Raise e))
  \/ exists oid doc o,
       ObjectId order_id = Some oid
       /\ Mongo.orders d !! oid = Some doc
       /\ Order.model_validate (Order.set_id doc (Some oid)) = Ok o
       /\ OrderStatus.can_transition_to (Order.order_status o) OrderStatus.DELIVERED
          = true
       /\ OrderService.mark_as_delivered now order_id d
          = (Mongo.set_orders d
               (<[oid := Order.set_delivered_at
                           (Order.set_order_status doc OrderStatus.DELIVERED)
                           (Some now)]> (Mongo.orders d)),
             Ok (Order.set_delivered_at
                   (Order.set_order_status o OrderStatus.DELIVERED) (Some now))).
Proof.
  destruct (OrderService.get_order order_id d) as [d0 [o|e]] eqn:Hget.
  - apply get_order_inv in Hget as Hinv.
    destruct Hinv as (-> & oid & doc & Hid & Hdoc & Hval).
    unfold OrderService.mark_as_delivered.
    rewrite (bind_Ok _ _ _ _ _ Hget). unfold Order.can_transition_to.
    destruct (OrderStatus.can_transition_to (Order.order_status o)
                OrderStatus.DELIVERED) eqn:Hcan; cbn [negb].
    + right. exists oid, doc, o. repeat split; try assumption.
      destruct (mark_as_delivered_found d now order_id oid doc Hid Hdoc) as (b & Hb).
      rewrite (bind_Ok _ _ _ _ _ Hb).
      apply (get_order_found _ order_id oid
               (Order.set_delivered_at
                  (Order.set_order_status doc OrderStatus.DELIVERED) (Some now)));
        [exact Hid | |].
      * cbn [Mongo.set_orders Mongo.orders]. apply lookup_insert_eq.
      * apply (Order_model_validate_set_delivered
                 (Order.set_order_status (Order.set_id doc (Some oid))
                    OrderStatus.DELIVERED)).
        apply Order_model_validate_set_status. exact Hval.
    + left. eexists. reflexivity.
  - pose proof (get_order_raises _ _ _ _ Hget) as ->.
    left. exists e. unfold OrderService.mark_as_delivered.
    apply bind_Raise. exact Hget.
Qed.

Lemma get_user_order_cases (order_id user_id : string) (d : Mongo.db) :
  (exists e, OrderService.get_user_order order_id user_id d = (d, Raise e))
  \/ exists o,
       OrderService.get_order order_id d = (d, Ok o)
       /\ Order.user o = user_id
       /\ OrderService.get_user_order order_id user_id d = (d, Ok o).
Proof.
  unfold OrderService.get_user_order.
  destruct (OrderService.get_order order_id d) as [d0 [o|e]] eqn:Hget.
  - destruct (get_order_inv _ _ _ _ Hget) as [-> _].
    rewrite (bind_Ok _ _ _ _ _ Hget).
    destruct (String.eqb_spec (Order.user o) user_id) as [Hu|Hu]; cbn [negb].
    + right. exists o. auto.
    + left. eexists. reflexivity.
  - pose proof (get_order_raises _ _ _ _ Hget) as ->.
    left. exists e. apply bind_Raise. exact Hget.
Qed.

(** [cancel_order]: either it raises and the database is as before, or the
    stock loop ran and the stored order became [CANCELLED]. *)
Lemma cancel_order_cases (now : datetime) (order_id user_id : string) (d : Mongo.db) :
  (exists e, OrderService.cancel_order now order_id user_id d = (d, Raise e))
  \/ exists oid doc o d1,
       ObjectId order_id = Some oid
       /\ Mongo.orders d !! oid = Some doc
       /\ Order.model_validate (Order.set_id doc (Some oid)) = Ok o
       /\ Order.user o = user_id
       /\ OrderStatus.is_cancellable (Order.order_status o) = true
       /\ for_each OrderService.restore_stock (Order.order_items o) d = (d1, Ok tt)
       /\ Mongo.orders d1 = Mongo.orders d
       /\ OrderService.cancel_order now order_id user_id d
          = (Mongo.set_orders d1
               (<[oid := Order.set_order_status doc OrderStatus.CANCELLED]>
                  (Mongo.orders d1)),
             Ok (Order.set_order_status o OrderStatus.CANCELLED)).
Proof.
  unfold OrderService.cancel_order.
  destruct (get_user_order_cases order_id user_id d)
    as [(e & He) | (o & Hget & Huser & Hrun)].
  - left. exists e. apply bind_Raise. exact He.
  - rewrite (bind_Ok _ _ _ _ _ Hrun). unfold Order.can_cancel.
    destruct (OrderStatus.is_cancellable (Order.order_status o)) eqn:Hc; cbn [negb].
    + right.
      destruct (get_order_inv _ _ _ _ Hget) as (_ & oid & doc & Hid & Hdoc & Hval).
      destruct (restore_total (Order.order_items o) d) as (d1 & Hrestore & Hord).
      assert (Hdoc1 : Mongo.orders d1 !! oid = Some doc) by (rewrite Hord; exact Hdoc).
      destruct (update_status_found d1 now order_id oid doc OrderStatus.CANCELLED
                  Hid Hdoc1) as (b & Hupd).
      cbn [OrderStatus.eqb] in Hupd.
      exists oid, doc, o, d1. repeat split; try assumption.
      rewrite (bind_Ok _ _ _ _ _ Hrestore), (bind_Ok _ _ _ _ _ Hupd).
      apply (get_order_found _ order_id oid
               (Order.set_order_status doc OrderStatus.CANCELLED)); [exact Hid | |].
      * cbn [Mongo.set_orders Mongo.orders]. apply lookup_insert_eq.
      * apply (Order_model_validate_set_status (Order.set_id doc (Some oid))).
        exact Hval.
    + left. eexists. reflexivity.
Qed.

Lemma bind_lift_Raise {A B : Type} (r : result A) (k : A -> M B) (d : Mongo.db)
    (e : exn) :
  r = Raise e -> bind (lift r) k d = (d, Raise e).
Proof. intros ->. reflexivity. Qed.

(** Read back under any identifier, an entity fresh from the constructor
    passes validation; only the identifier is stripped. *)
Lemma Order_new_revalidate_any (now : datetime) (user : string) (sh : ShippingInfo.t)
    (items : list OrderItem.t) (ip tax sp : Decimal) (pay : PaymentInfo.t)
    (paid : option datetime) (st : OrderStatus.t) (o : Order.t) (k : string) :
  Order.new now user sh items ip tax sp (Some pay) paid st = Ok o ->
  ShippingInfo.model_validate sh = Ok sh ->
  Forall (fun i => OrderItem.model_validate i = Ok i) items ->
  PaymentInfo.model_validate pay = Ok pay ->
  Order.model_validate (Order.set_id o (Some k)) = Ok (Order.set_id o (Some (strip k))).
Proof.
  unfold Order.new. intros H Hsh Hitems Hpay.
  apply validate_inv in H as (Hne & H1 & H2 & H3 & H4 & H5 & H6 & ->).
  unfold Order.model_validate.
  cbn [Order.set_id Order.shipping_info Order.order_items Order.payment_info
       Order.id Order.created_at Order.user Order.items_price Order.tax_price
       Order.shipping_price Order.total_price Order.paid_at Order.delivered_at
       Order.order_status].
  rewrite Hsh, (rmapM_fixed _ _ Hitems), Hpay. cbn [rbind].
  rewrite validate_closed_form. cbv zeta.
  destruct items as [|i items]; [congruence|].
  change (1 <=? length (i :: items))%nat with true.
  rewrite H2, H3, H5, H6. cbn [andb fmap option_fmap option_map].
  rewrite strip_idem. reflexivity.
Qed.

(** [create_order]: either it raises and the database is as before, or it
    returns. *)
Lemma create_order_cases (now : datetime) (generated user_id : string)
    (shipping_info : ShippingInfo.t) (order_items : list OrderService.item_dict)
    (items_price tax_price shipping_price : Decimal) (payment_info : PaymentInfo.t)
    (d : Mongo.db) :
  (exists e,
      OrderService.create_order now generated user_id shipping_info order_items
        items_price tax_price shipping_price payment_info d = (d, Raise e))
  \/ exists d' o,
       OrderService.create_order now generated user_id shipping_info order_items
         items_price tax_price shipping_price payment_info d = (d', Ok o).
Proof.
  unfold OrderService.create_order.
  destruct (for_each OrderService.check_stock order_items d) as [d0 [[]|e]] eqn:Hc;
    pose proof (check_all_pure _ _ _ _ Hc) as ->.
  2:{ left. exists e. apply bind_Raise. exact Hc. }
  rewrite (bind_Ok _ _ _ _ _ Hc).
  destruct (ShippingInfo.new (ShippingInfo.address shipping_info)
              (ShippingInfo.city shipping_info) (ShippingInfo.country shipping_info)
              (ShippingInfo.postal_code shipping_info)
              (ShippingInfo.phone_no shipping_info)) as [sh|e] eqn:Hsh.
  2:{ left. exists e. apply bind_lift_Raise. reflexivity. }
  rewrite (bind_lift_Ok _ _ _ _ eq_refl).
  destruct (rmapM (fun item =>
                     OrderItem.new (OrderService.product item) (OrderService.name item)
                       (OrderService.price item) (OrderService.quantity item)
                       (OrderService.image item)) order_items) as [items|e] eqn:Hit.
  2:{ left. exists e. apply bind_lift_Raise. reflexivity. }
  rewrite (bind_lift_Ok _ _ _ _ eq_refl).
  set (pay := PaymentInfo.mk (strip (PaymentInfo.id payment_info))
                (strip (PaymentInfo.status payment_info))).
  assert (Hpay : PaymentInfo.new (PaymentInfo.id payment_info)
                   (PaymentInfo.status payment_info) = Ok pay) by reflexivity.
  rewrite (bind_lift_Ok _ _ _ _ Hpay).
  destruct (Order.new now user_id sh items items_price tax_price shipping_price
              (Some pay)
              (if String.eqb (PaymentInfo.status payment_info) "succeeded"
               then Some now else None) OrderStatus.PROCESSING) as [order|e] eqn:Hnew.
  2:{ left. exists e. apply bind_lift_Raise. reflexivity. }
  rewrite (bind_lift_Ok _ _ _ _ eq_refl).
  assert (Hid : Order.id order = None).
  { unfold Order.new in Hnew. apply validate_inv in Hnew.
    destruct Hnew as (_ & _ & _ & _ & _ & _ & _ & ->). reflexivity. }
  destruct (Mongo.orders d !! generated) as [old|] eqn:Hfresh.
  - left. exists DuplicateKeyError. apply bind_Raise.
    unfold OrderRepo.create, OrderRepo._to_document_id. rewrite Hid.
    unfold bind, lift, OrderRepo.insert_one. rewrite Hfresh. reflexivity.
  - right.
    destruct (Forall2_new_items _ _ (rmapM_inv _ _ _ Hit)) as (_ & Hidem & _).
    pose proof (Order_new_revalidate_any _ _ _ _ _ _ _ _ _ _ _ generated Hnew
                  (ShippingInfo_new_idem _ _ _ _ _ _ Hsh) Hidem
                  (PaymentInfo_new_idem _ _ _ Hpay)) as Hre.
    rewrite (bind_Ok _ _ _ _ _ (create_fresh d generated order _ Hid Hfresh Hre)).
    destruct (reduce_total order_items
                (Mongo.set_orders d (<[generated := order]> (Mongo.orders d))))
      as (d' & Hred & _).
    rewrite (bind_Ok _ _ _ _ _ Hred).
    eexists _, _. reflexivity.
Qed.

(** X7: an operation of the order service that raises, whatever the
    exception, leaves the database exactly as it found it: [create_order],
    [cancel_order], [update_order_status] and [mark_as_delivered] write
    only on the runs that return. *)
Theorem raising_operations_write_nothing :
  (forall now generated user_id shipping_info order_items items_price tax_price
          shipping_price payment_info d d' e,
      OrderService.create_order now generated user_id shipping_info order_items
        items_price tax_price shipping_price payment_info d = (d', Raise e) ->
      d' = d)
  /\ (forall now order_id user_id d d' e,
         OrderService.cancel_order now order_id user_id d = (d', Raise e) -> d' = d)
  /\ (forall now order_id status d d' e,
         OrderService.update_order_status now order_id status d = (d', Raise e) ->
         d' = d)
  /\ (forall now order_id d d' e,
         OrderService.mark_as_delivered now order_id d = (d', Raise e) -> d' = d).
Proof.
  split; [|split; [|split]].
  - intros * H.
    destruct (create_order_cases now generated user_id shipping_info order_items
                items_price tax_price shipping_price payment_info d)
      as [(e' & He) | (d2 & o & Ho)]; rewrite H in *; congruence.
  - intros * H.
    destruct (cancel_order_cases now order_id user_id d)
      as [(e' & He) | (oid & doc & o & d1 & _ & _ & _ & _ & _ & _ & _ & Ho)];
      rewrite H in *; congruence.
  - intros * H.
    destruct (update_order_status_cases now order_id status d)
      as [(e' & He) | (oid & doc & o & _ & _ & _ & _ & Ho)];
      rewrite H in *; congruence.
  - intros * H.
    destruct (mark_as_delivered_cases now order_id d)
      as [(e' & He) | (oid & doc & o & _ & _ & _ & _ & Ho)];
      rewrite H in *; congruence.
Qed.

Lemma raising_operations_write_nothing_witness :
  let pid := "aaaaaaaaaaaaaaaaaaaaaaaa" in
  let d := Mongo.mk {[ pid := Product.mk "Widget" 5 ]} ∅ in
  let run := OrderService.create_order 100 "0123456789abcdef01234567" "u1"
               (ShippingInfo.mk "1 Main St" "Town" "Land" "12345" "555")
               [OrderService.mkItem pid "Widget" (mkDecimal 10 0) 2 "w.png";
                OrderService.mkItem pid "Widget" (mkDecimal 10 0) 9 "w.png"]
               (mkDecimal 110 0) (mkDecimal 0 2) (mkDecimal 0 2)
               (PaymentInfo.mk "tx1" "succeeded") d in
  (exists e, snd run = Raise e) /\ fst run = d.
Proof.
  intros pid d run.
  destruct run as [d' [o|e]] eqn:Hrun; [vm_compute in Hrun; discriminate Hrun|].
  split; [exists e; reflexivity|].
  exact (proj1 raising_operations_write_nothing _ _ _ _ _ _ _ _ _ _ _ _ Hrun).
Defined.

(** X8: for an identifier that is malformed or denotes no stored order,
    [get_order], [get_user_order], [update_order_status], [cancel_order] and
    [mark_as_delivered] all raise [NotFoundError("Order not found")] and
    write nothing. *)
Theorem unknown_order_is_not_found (d : Mongo.db) (order_id : string) :
  stored_order d order_id = None ->
  let not_found := (d, @Raise Order.t (NotFoundError "Order not found")) in
  OrderService.get_order order_id d = not_found
  /\ (forall user_id, OrderService.get_user_order order_id user_id d = not_found)
  /\ (forall now status,
         OrderService.update_order_status now order_id status d = not_found)
  /\ (forall now user_id, OrderService.cancel_order now order_id user_id d = not_found)
  /\ (forall now, OrderService.mark_as_delivered now order_id d = not_found).
Proof.
  intros Hnone not_found.
  assert (Hget : OrderService.get_order order_id d = not_found).
  { rewrite get_order_eval, Hnone. reflexivity. }
  assert (Huser : forall user_id,
             OrderService.get_user_order order_id user_id d = not_found).
  { intros user_id. unfold OrderService.get_user_order.
    apply bind_Raise. exact Hget. }
  split; [exact Hget|]. split; [exact Huser|].
  split; [|split].
  - intros now status. unfold OrderService.update_order_status.
    apply bind_Raise. exact Hget.
  - intros now user_id. unfold OrderService.cancel_order.
    apply bind_Raise. apply Huser.
  - intros now. unfold OrderService.mark_as_delivered.
    apply bind_Raise. exact Hget.
Qed.

Lemma unknown_order_is_not_found_witness :
  let d := Mongo.mk ∅ ∅ in
  OrderService.get_order "not-an-object-id" d
  = (d, Raise (NotFoundError "Order not found"))
  /\ OrderService.cancel_order 100 "0123456789abcdef01234567" "u1" d
     = (d, Raise (NotFoundError "Order not found")).
Proof.
  intros d. split.
  - exact (proj1 (unknown_order_is_not_found d "not-an-object-id" eq_refl)).
  - destruct (unknown_order_is_not_found d "0123456789abcdef01234567" eq_refl)
      as (_ & _ & _ & Hcancel & _).
    exact (Hcancel 100 "u1").
Defined.

(** X9: [mark_as_delivered] is [update_order_status] with target
    [DELIVERED]: on every database and identifier the two leave the same
    database and return the same order, or raise the same exception; only the
    text of the [ValidationError] for an illegal transition differs, and then
    neither has written. *)
Theorem mark_as_delivered_is_update_to_delivered (now : datetime) (order_id : string)
    (d : Mongo.db) :
  OrderService.mark_as_delivered now order_id d
  = OrderService.update_order_status now order_id OrderStatus.DELIVERED d
  \/ exists m1 m2,
       OrderService.mark_as_delivered now order_id d = (d, Raise (ValidationError m1))
       /\ OrderService.update_order_status now order_id OrderStatus.DELIVERED d
          = (d, Raise (ValidationError m2)).
Proof.
  destruct (OrderService.get_order order_id d) as [d0 [o|e]] eqn:Hget.
  - destruct (get_order_inv _ _ _ _ Hget) as (-> & oid & doc & Hid & Hdoc & Hval).
    destruct (OrderStatus.can_transition_to (Order.order_status o)
                OrderStatus.DELIVERED) eqn:Hcan.
    + left.
      rewrite (update_order_status_legal d now order_id oid doc o
                 OrderStatus.DELIVERED Hid Hdoc Hval Hcan).
      cbn [OrderStatus.eqb].
      destruct (mark_as_delivered_cases now order_id d)
        as [(e & He) | (oid' & doc' & o' & Hid' & Hdoc' & Hval' & _ & Hrun)].
      * exfalso. unfold OrderService.mark_as_delivered in He.
        rewrite (bind_Ok _ _ _ _ _ Hget) in He.
        unfold Order.can_transition_to in He. rewrite Hcan in He. cbn [negb] in He.
        destruct (mark_as_delivered_found d now order_id oid doc Hid Hdoc) as (b & Hb).
        rewrite (bind_Ok _ _ _ _ _ Hb) in He.
        rewrite get_order_eval in He. injection He as Hd _.
        apply (f_equal (fun x => Mongo.orders x !! oid)) in Hd.
        cbn [Mongo.set_orders Mongo.orders] in Hd.
        rewrite lookup_insert_eq, Hdoc in Hd. injection Hd as Hd.
        apply (f_equal Order.order_status) in Hd. cbn in Hd.
        apply Order_model_validate_fields in Hval as (Hst & _).
        cbn in Hst. rewrite <- Hd in Hst. rewrite Hst in Hcan. discriminate Hcan.
      * rewrite Hid in Hid'. injection Hid' as <-.
        rewrite Hdoc in Hdoc'. injection Hdoc' as <-.
        rewrite Hval in Hval'. injection Hval' as <-.
        exact Hrun.
    + right.
      unfold OrderService.mark_as_delivered, OrderService.update_order_status.
      rewrite !(bind_Ok _ _ _ _ _ Hget).
      unfold Order.can_transition_to. rewrite Hcan. cbn [negb].
      eexists _, _. split; reflexivity.
  - left.
    unfold OrderService.mark_as_delivered, OrderService.update_order_status.
    rewrite !(bind_Raise _ _ _ _ _ Hget). reflexivity.
Qed.

(** ** Stored orders only move along the table *)

Lemma orders_advance_refl (d d' : Mongo.db) :
  Mongo.orders d' = Mongo.orders d -> orders_advance d d'.
Proof.
  intros H oid. rewrite H.
  destruct (Mongo.orders d !! oid) as [doc|]; [|reflexivity].
  exists doc. auto.
Qed.

Lemma orders_advance_at (d d' : Mongo.db) (oid : string) (doc : Order.t)
    (s : OrderStatus.t) (t : option datetime) :
  Mongo.orders d !! oid = Some doc ->
  OrderStatus.can_transition_to (Order.order_status doc) s = true ->
  Mongo.orders d'
  = <[oid := Order.set_delivered_at (Order.set_order_status doc s) t]> (Mongo.orders d) ->
  orders_advance d d'.
Proof.
  intros Hdoc Hcan Hd' k. rewrite Hd'.
  destruct (decide (oid = k)) as [<-|Hne].
  - rewrite Hdoc, lookup_insert_eq. eexists. split; [reflexivity|].
    right. exists s, t. auto.
  - rewrite lookup_insert_ne by exact Hne.
    destruct (Mongo.orders d !! k) as [doc'|]; [|reflexivity].
    exists doc'. auto.
Qed.

Lemma is_cancellable_transition (s : OrderStatus.t) :
  OrderStatus.is_cancellable s = true ->
  OrderStatus.can_transition_to s OrderStatus.CANCELLED = true.
Proof. destruct s; simpl; intros H; try discriminate H; reflexivity. Qed.

(** X10: whatever happens, [update_order_status], [cancel_order] and
    [mark_as_delivered] neither add nor remove an order, and the only change
    they make to a stored order is a status change that the transition table
    accepts, with or without a new delivery time; [create_order] leaves
    every order that was stored as it was. *)
Theorem stored_orders_follow_the_table :
  (forall now order_id status,
      keeps orders_advance (OrderService.update_order_status now order_id status))
  /\ (forall now order_id user_id,
         keeps orders_advance (OrderService.cancel_order now order_id user_id))
  /\ (forall now order_id,
         keeps orders_advance (OrderService.mark_as_delivered now order_id))
  /\ (forall now generated user_id shipping_info order_items items_price tax_price
             shipping_price payment_info,
         keeps orders_extended
           (OrderService.create_order now generated user_id shipping_info
              order_items items_price tax_price shipping_price payment_info)).
Proof.
  split; [|split; [|split]].
  - intros now order_id status d d' r H.
    destruct (update_order_status_cases now order_id status d)
      as [(e & He) | (oid & doc & o & Hid & Hdoc & Hval & Hcan & Hrun)];
      rewrite H in *.
    + injection He as -> _. apply orders_advance_refl. reflexivity.
    + injection Hrun as -> _.
      apply Order_model_validate_fields in Hval as (Hst & _). cbn in Hst.
      rewrite Hst in Hcan.
      destruct (OrderStatus.eqb status OrderStatus.DELIVERED).
      * apply (orders_advance_at d _ oid doc status (Some now) Hdoc Hcan).
        reflexivity.
      * apply (orders_advance_at d _ oid doc status (Order.delivered_at doc) Hdoc Hcan).
        reflexivity.
  - intros now order_id user_id d d' r H.
    destruct (cancel_order_cases now order_id user_id d)
      as [(e & He)
         | (oid & doc & o & d1 & Hid & Hdoc & Hval & _ & Hc & _ & Hord & Hrun)];
      rewrite H in *.
    + injection He as -> _. apply orders_advance_refl. reflexivity.
    + injection Hrun as -> _.
      apply Order_model_validate_fields in Hval as (Hst & _). cbn in Hst.
      rewrite Hst in Hc. apply is_cancellable_transition in Hc.
      apply (orders_advance_at d _ oid doc OrderStatus.CANCELLED
               (Order.delivered_at doc) Hdoc Hc).
      cbn [Mongo.set_orders Mongo.orders]. rewrite Hord. reflexivity.
  - intros now order_id d d' r H.
    destruct (mark_as_delivered_cases now order_id d)
      as [(e & He) | (oid & doc & o & Hid & Hdoc & Hval & Hcan & Hrun)];
      rewrite H in *.
    + injection He as -> _. apply orders_advance_refl. reflexivity.
    + injection Hrun as -> _.
      apply Order_model_validate_fields in Hval as (Hst & _). cbn in Hst.
      rewrite Hst in Hcan.
      apply (orders_advance_at d _ oid doc OrderStatus.DELIVERED (Some now)
               Hdoc Hcan).
      reflexivity.
  - intros now generated user_id shipping_info order_items items_price tax_price
      shipping_price payment_info d d' r H.
    destruct r as [o|e].
    + apply create_order_inv in H
        as (sh & items & order & _ & _ & _ & Hfresh & _ & Hred).
      destruct (reduce_total order_items
                  (Mongo.set_orders d (<[generated := order]> (Mongo.orders d))))
        as (d2 & Hred' & Hord).
      rewrite Hred in Hred'. injection Hred' as <-.
      intros oid doc Hdoc. rewrite Hord. cbn [Mongo.set_orders Mongo.orders].
      rewrite lookup_insert_ne; [exact Hdoc|].
      intros <-. congruence.
    + destruct (create_order_cases now generated user_id shipping_info order_items
                  items_price tax_price shipping_price payment_info d)
        as [(e' & He) | (d2 & o & Ho)]; rewrite H in *; [|discriminate Ho].
      injection He as -> _. intros oid doc Hdoc. exact Hdoc.
Qed.

(** ** Creating, reading back and cancelling *)














(** ** Stock never drops further than what was ordered *)








(** ** The methods of the entities *)






(** X18: on a stored product with a non-negative stock and for a positive
    quantity, the entity's [reduce_stock] and [can_fulfill] and the
    repository's guarded decrement accept the same requests: when the method
    returns, [update_stock] with the negated quantity reports [True] and
    stores exactly the product the method gives; when the method raises
    [ValueError], [update_stock] reports [False] and writes nothing. *)
Theorem entity_and_repository_stock_guards_agree (d : Mongo.db)
    (product_id oid : string) (p : Product.t) (quantity : Z) :
  ObjectId product_id = Some oid ->
  Mongo.products d !! oid = Some p ->
  0 <= Product.stock p ->
  0 < quantity ->
  (ProductMethods.can_fulfill p quantity = true
     <-> snd (ProductRepo.update_stock product_id (- quantity) d) = Ok true)
  /\ match ProductMethods.reduce_stock p quantity with
     | Returned p' =>
         ProductRepo.update_stock product_id (- quantity) d
         = (Mongo.set_products d (<[oid := p']> (Mongo.products d)), Ok true)
     | RaisedValueError _ =>
         ProductRepo.update_stock product_id (- quantity) d = (d, Ok false)
     | Raised _ => False
     end.
Proof.
  intros Hid Hp Hstock Hq.
  rewrite (update_stock_eval d product_id oid p (- quantity) Hid Hp).
  unfold ProductMethods.can_fulfill, ProductMethods.reduce_stock,
    ProductMethods.assign_stock.
  destruct (Z.ltb_spec (- quantity) 0) as [_|?]; [|lia].
  assert (Hz : (- quantity =? 0) = false) by (apply Z.eqb_neq; lia).
  rewrite Hz, Z.opp_involutive. cbn [negb].
  rewrite Z.geb_leb, Z.gtb_ltb.
  destruct (Z.leb_spec quantity (Product.stock p)) as [Hle|Hgt].
  - destruct (Z.ltb_spec (Product.stock p) quantity) as [?|_]; [lia|].
    destruct (Z.leb_spec 0 (Product.stock p - quantity)) as [_|?]; [|lia].
    split; [tauto|]. reflexivity.
  - destruct (Z.ltb_spec (Product.stock p) quantity) as [_|?]; [|lia].
    split; [|reflexivity]. split; discriminate.
Qed.

Lemma entity_and_repository_stock_guards_agree_witness :
  let pid := "aaaaaaaaaaaaaaaaaaaaaaaa" in
  let p := Product.mk "Widget" 5 in
  let d := Mongo.mk {[ pid := p ]} ∅ in
  ProductMethods.can_fulfill p 3 = true
  /\ snd (ProductRepo.update_stock pid (- 3) d) = Ok true.
Proof.
  intros pid p d.
  destruct (entity_and_repository_stock_guards_agree d pid pid p 3 eq_refl eq_refl)
    as [Hiff _]; [simpl; lia | lia |].
  split; [reflexivity | apply Hiff; reflexivity].
Defined.

(** X19: on a product with a non-negative stock, no stock method can
    return a negative stock; adding a non-negative quantity and reducing by
    it again gives the product back; [add_stock] refuses every negative
    quantity, whereas [reduce_stock] refuses only quantities above the stock
    and, given a negative one, raises the stock; a product is in stock
    exactly when it can fulfil a quantity of one. *)
Theorem stock_methods_keep_stock_nonneg (p : Product.t) (quantity : Z) :
  0 <= Product.stock p ->
  (forall p', ProductMethods.reduce_stock p quantity = Returned p' ->
              0 <= Product.stock p'
              /\ Product.stock p' = Product.stock p - quantity
              /\ Product.name p' = Product.name p)
  /\ (forall p', ProductMethods.add_stock p quantity = Returned p' ->
                 0 <= quantity
                 /\ Product.stock p' = Product.stock p + quantity
                 /\ ProductMethods.reduce_stock p' quantity = Returned p)
  /\ (quantity < 0 ->
      ProductMethods.add_stock p quantity
      = RaisedValueError "Cannot add negative stock"
      /\ ProductMethods.reduce_stock p quantity
         = Returned (Product.set_stock p (Product.stock p - quantity)))
  /\ (ProductMethods.reduce_stock p quantity
      = ProductMethods.assign_stock p (Product.stock p - quantity)
      <-> quantity <= Product.stock p)
  /\ (ProductMethods.is_in_stock p = true <-> ProductMethods.can_fulfill p 1 = true).
Proof.
  intros Hstock.
  unfold ProductMethods.reduce_stock, ProductMethods.add_stock,
    ProductMethods.assign_stock, ProductMethods.is_in_stock,
    ProductMethods.can_fulfill.
  rewrite Z.gtb_ltb.
  split; [|split; [|split; [|split]]].
  5:{ rewrite Z.gtb_ltb, Z.geb_leb, Z.ltb_lt, Z.leb_le. lia. }
  - intros p'. destruct (Z.ltb_spec (Product.stock p) quantity); [discriminate|].
    destruct (Z.leb_spec 0 (Product.stock p - quantity)); [|discriminate].
    intros [= <-]. simpl. auto.
  - intros p'. destruct (Z.ltb_spec quantity 0); [discriminate|].
    destruct (Z.leb_spec 0 (Product.stock p + quantity)); [|discriminate].
    intros [= <-]. cbn [Product.set_stock Product.stock Product.name].
    rewrite Z.gtb_ltb.
    destruct (Z.ltb_spec (Product.stock p + quantity) quantity); [lia|].
    destruct (Z.leb_spec 0 (Product.stock p + quantity - quantity)); [|lia].
    repeat split; [assumption|].
    f_equal. destruct p as [n s]. unfold Product.set_stock. simpl. f_equal. lia.
  - intros Hneg.
    destruct (Z.ltb_spec quantity 0); [|lia].
    destruct (Z.ltb_spec (Product.stock p) quantity); [lia|].
    destruct (Z.leb_spec 0 (Product.stock p - quantity)); [|lia].
    split; reflexivity.
  - destruct (Z.ltb_spec (Product.stock p) quantity) as [Hlt|Hge].
    + split; [|lia].
      destruct (Z.leb_spec 0 (Product.stock p - quantity)); discriminate.
    + split; [intros _; exact Hge | reflexivity].
Qed.

Lemma stock_methods_keep_stock_nonneg_witness :
  let p := Product.mk "Widget" 5 in
  exists p', ProductMethods.add_stock p 4 = Returned p'
             /\ ProductMethods.reduce_stock p' 4 = Returned p.
Proof.
  intros p.
  eexists. split; [reflexivity|].
  destruct (stock_methods_keep_stock_nonneg p 4) as (_ & Hadd & _); [simpl; lia|].
  exact (proj2 (proj2 (Hadd _ eq_refl))).
Defined.

(** ** Sales statistics of a non-empty store *)







(** ** What the results of the repository's updates say *)

Lemma set_orders_same (d : Mongo.db) : Mongo.set_orders d (Mongo.orders d) = d.
Proof. destruct d. reflexivity. Qed.

Lemma OrderStatus_eqb_eq (a b : OrderStatus.t) : OrderStatus.eqb a b = true <-> a = b.
Proof. destruct a, b; simpl; split; intros; congruence. Qed.

Lemma opt_datetime_eqb_eq (a b : option datetime) :
  opt_datetime_eqb a b = true <-> a = b.
Proof.
  destruct a as [x|], b as [y|]; simpl; split; intros H; try congruence.
  - apply Z.eqb_eq in H. congruence.
  - injection H as ->. apply Z.eqb_refl.
Qed.

Lemma update_one_set_cases (oid : string) (status : OrderStatus.t)
    (delivered : option datetime) (d : Mongo.db) :
  exists d' r,
    OrderRepo.update_one_set oid status delivered d = (d', Ok r)
    /\ Mongo.products d' = Mongo.products d
    /\ (forall k, k <> oid -> Mongo.orders d' !! k = Mongo.orders d !! k)
    /\ ((Mongo.modified_count r = 0 /\ d' = d)
        \/ (Mongo.modified_count r = 1 /\ d' <> d
            /\ exists doc doc',
                 Mongo.orders d !! oid = Some doc
                 /\ Mongo.orders d' !! oid = Some doc'
                 /\ Order.order_status doc' = status
                 /\ match delivered with
                    | Some t => Order.delivered_at doc' = Some t
                    | None => Order.delivered_at doc' = Order.delivered_at doc
                    end)).
Proof.
  unfold OrderRepo.update_one_set.
  destruct (Mongo.orders d !! oid) as [doc|] eqn:Hdoc.
  2:{ exists d, (Mongo.mkUpdateResult 0 0). repeat split. left. split; reflexivity. }
  cbv zeta. eexists _, _. split; [reflexivity|].
  split; [reflexivity|].
  split; [intros k Hk; cbn; apply lookup_insert_ne; congruence|].
  destruct (OrderStatus.eqb (Order.order_status doc) status
            && match delivered with
               | Some t => opt_datetime_eqb (Order.delivered_at doc) (Some t)
               | None => true
               end) eqn:Hsame.
  - left. split; [reflexivity|].
    apply andb_true_iff in Hsame as [Hst Hdel].
    apply OrderStatus_eqb_eq in Hst.
    assert (Hd : match delivered with
                 | Some t => Order.set_delivered_at (Order.set_order_status doc status)
                               (Some t)
                 | None => Order.set_order_status doc status
                 end = doc).
    { destruct delivered as [t|].
      - apply opt_datetime_eqb_eq in Hdel. destruct doc. cbn in *. subst.
        reflexivity.
      - destruct doc. cbn in *. subst. reflexivity. }
    rewrite Hd, (insert_id _ _ _ Hdoc). apply set_orders_same.
  - right. split; [reflexivity|].
    split.
    + intros Heq. apply (f_equal Mongo.orders) in Heq. cbn in Heq.
      apply (f_equal (fun m => m !! oid)) in Heq. cbn in Heq.
      rewrite lookup_insert_eq, Hdoc in Heq. injection Heq as Heq.
      apply andb_false_iff in Hsame as [Hst|Hdel].
      * assert (Order.order_status doc = status); [|
          apply OrderStatus_eqb_eq in H; congruence].
        rewrite <- Heq. destruct delivered; reflexivity.
      * destruct delivered as [t|]; [|discriminate].
        assert (Order.delivered_at doc = Some t) by (rewrite <- Heq; reflexivity).
        apply opt_datetime_eqb_eq in H. congruence.
    + eexists _, _. split; [reflexivity|]. cbn. rewrite lookup_insert_eq.
      split; [reflexivity|]. destruct delivered; split; reflexivity.
Qed.

(** X21: the repository's [update_status] and [mark_as_delivered] never
    raise, never touch the products or another order, and their result tells
    whether anything was written: [False] (malformed id, unknown order, or an
    order that already has the values) leaves the database exactly as it
    was, and [True] means the order now has the new status (and, for
    [mark_as_delivered], the delivery time that was given or else the
    current time) and the database differs from before. *)
Theorem repository_updates_report_change (d : Mongo.db) (now : datetime)
    (order_id : string) (status : OrderStatus.t) (delivered_at : option datetime) :
  (exists d' b,
     OrderRepo.update_status now order_id status d = (d', Ok b)
     /\ Mongo.products d' = Mongo.products d
     /\ (forall k, ObjectId order_id <> Some k ->
                   Mongo.orders d' !! k = Mongo.orders d !! k)
     /\ (b = false -> d' = d)
     /\ (b = true ->
         d' <> d /\ Order.order_status <$> stored_order d' order_id = Some status))
  /\ (exists d' b,
        OrderRepo.mark_as_delivered now order_id delivered_at d = (d', Ok b)
        /\ Mongo.products d' = Mongo.products d
        /\ (forall k, ObjectId order_id <> Some k ->
                      Mongo.orders d' !! k = Mongo.orders d !! k)
        /\ (b = false -> d' = d)
        /\ (b = true ->
            d' <> d
            /\ Order.order_status <$> stored_order d' order_id
               = Some OrderStatus.DELIVERED
            /\ Order.delivered_at <$> stored_order d' order_id
               = Some (Some (match delivered_at with Some t => t | None => now end)))).
Proof.
  unfold OrderRepo.update_status, OrderRepo.mark_as_delivered, stored_order.
  destruct (ObjectId order_id) as [oid|].
  2:{ split; exists d, false; (split; [reflexivity|]);
        (split; [reflexivity|]); (split; [reflexivity|]);
        (split; [reflexivity | discriminate]). }
  split.
  - destruct (update_one_set_cases oid status
                (if OrderStatus.eqb status OrderStatus.DELIVERED
                 then Some now else None) d)
      as (d' & r & Hrun & Hprod & Hother & Hcases).
    unfold bind. rewrite Hrun.
    destruct Hcases as [[Hm ->] | (Hm & Hne & doc & doc' & _ & Hdoc' & Hst & _)];
      rewrite Hm; cbn [Z.gtb Z.compare].
    + exists d, false. repeat split; try reflexivity; discriminate.
    + exists d', true. split; [reflexivity|]. split; [exact Hprod|].
      split; [intros k Hk; apply Hother; congruence|].
      split; [discriminate|]. intros _. split; [exact Hne|].
      rewrite Hdoc'. cbn. rewrite Hst. reflexivity.
  - destruct (update_one_set_cases oid OrderStatus.DELIVERED
                (Some (match delivered_at with Some t => t | None => now end)) d)
      as (d' & r & Hrun & Hprod & Hother & Hcases).
    unfold bind. rewrite Hrun.
    destruct Hcases as [[Hm ->] | (Hm & Hne & doc & doc' & _ & Hdoc' & Hst & Hdel)];
      rewrite Hm; cbn [Z.gtb Z.compare].
    + exists d, false. repeat split; try reflexivity; discriminate.
    + exists d', true. split; [reflexivity|]. split; [exact Hprod|].
      split; [intros k Hk; apply Hother; congruence|].
      split; [discriminate|]. intros _. split; [exact Hne|].
      rewrite Hdoc'. cbn. rewrite Hst, Hdel. split; reflexivity.
Qed.

(** ** Reading an order back *)








(** ** Deleting a product *)


